(** * Onion Architecture sample (onion.py): layered CRUD over an in-memory store

    A shallow embedding of [src/Onion Architecture/onion.py] and the
    properties of its Controller -> Service -> Repository -> Database call
    chain.

    Python features the embedding has to account for:
    - the three lists of the single [Database] object are mutated in place and
      are shared by the three repositories: the database is the state that is
      threaded through every call;
    - [list.remove] raises [ValueError] when nothing matches, and the exception
      crosses the Service and the Controller untouched;
    - every method prints a trace line; the duplicate check of
      [StudentService.add_student] reports through [print] only;
    - [Student], [Course] and [Trainer] define no [__eq__], so [==] on them
      (the comparison [list.remove] uses) is object identity. *)

From Stdlib Require Import ZArith String List DecimalString DecimalZ Lia.
Import ListNotations.
Local Open Scope string_scope.
Local Open Scope list_scope.

(* ================================================================= *)
(** ** Python objects and lists *)

(** The identity of a Python object (what [id(obj)] returns). *)
Definition ObjId := positive.

(** Instances of a class: every value carries the identity of the object it
    stands for. *)
Class PyObject (A : Type) := py_id : A -> ObjId.

(** [a == b] for instances of a class that inherits [object.__eq__]:
    true exactly when both are the same object. *)
Definition py_eq {A} `{PyObject A} (a b : A) : bool :=
  Pos.eqb (py_id a) (py_id b).

(** [x in l], with the same comparison. *)
Definition py_in {A} `{PyObject A} (x : A) (l : list A) : Prop :=
  exists y, In y l /\ py_id y = py_id x.

(** [l.append(x)]: the list after the call. *)
Definition list_append {A} (l : list A) (x : A) : list A := l ++ [x].

(** [l.remove(x)]: the list after the call, with the first item equal to [x]
    taken out; [None] when no item is equal to [x] (Python raises
    [ValueError] there). *)
Fixpoint list_remove {A} `{PyObject A} (l : list A) (x : A) : option (list A) :=
  match l with
  | [] => None
  | y :: l' =>
      if py_eq y x then Some l'
      else option_map (cons y) (list_remove l' x)
  end.

(* ================================================================= *)
(** ** Domain layer: entities *)

(** An entity value is the identity of the object together with the
    attributes [__init__] gave it; no method of onion.py assigns an attribute
    afterwards.  Keys are Python integers, as in the main program. *)

Module Student.
Record t := init
  { self : ObjId; student_id : Z; name : string; email : string }.
End Student.

Module Course.
Record t := init
  { self : ObjId; course_id : Z; title : string; trainer_id : Z }.
End Course.

Module Trainer.
Record t := init
  { self : ObjId; trainer_id : Z; name : string; expertise : string }.
End Trainer.

#[global] Instance Student_object : PyObject Student.t := Student.self.
#[global] Instance Course_object : PyObject Course.t := Course.self.
#[global] Instance Trainer_object : PyObject Trainer.t := Trainer.self.

(* ================================================================= *)
(** ** The fake database *)

Module Database.
Record t := mk
  { students : list Student.t;
    courses : list Course.t;
    trainers : list Trainer.t }.

(** [Database()] *)
Definition init : t := mk [] [] [].

(** Rebinding the contents of one list; the two others are kept. *)
Definition set_students (l : list Student.t) (db : t) : t :=
  mk l (courses db) (trainers db).
Definition set_courses (l : list Course.t) (db : t) : t :=
  mk (students db) l (trainers db).
Definition set_trainers (l : list Trainer.t) (db : t) : t :=
  mk (students db) (courses db) l.
End Database.

(* ================================================================= *)
(** ** The monad of method calls

    A call runs on the current database and yields how it ended (a returned
    value or a raised exception), the database it leaves behind, and the lines
    it printed.  A raised exception keeps the mutations made before it.

    [None] is [tt].  A method that ends on a call whose result it drops
    returns [None]; the calls so dropped in onion.py ([append], [remove] and
    the [add_] and [remove_] methods) return [None] themselves, so such a
    method is written with the call as its last step. *)

Inductive Exception := ValueError (msg : string).

Inductive Outcome (A : Type) :=
| Returns (a : A)
| Raises (e : Exception).
Arguments Returns {A} a.
Arguments Raises {A} e.

Record Run (A : Type) := mkRun
  { outcome : Outcome A;
    db_after : Database.t;
    stdout : list string }.
Arguments mkRun {A} _ _ _.
Arguments outcome {A} _.
Arguments db_after {A} _.
Arguments stdout {A} _.

Definition Py (A : Type) : Type := Database.t -> Run A.

Definition ret {A} (a : A) : Py A :=
  fun db => mkRun (Returns a) db [].

Definition bind {A B} (m : Py A) (f : A -> Py B) : Py B :=
  fun db =>
    let r := m db in
    match outcome r with
    | Returns a =>
        let r' := f a (db_after r) in
        mkRun (outcome r') (db_after r') (stdout r ++ stdout r')
    | Raises e => mkRun (Raises e) (db_after r) (stdout r)
    end.

Definition raise {A} (e : Exception) : Py A :=
  fun db => mkRun (Raises e) db [].

Definition print (line : string) : Py unit :=
  fun db => mkRun (Returns tt) db [line].

Definition gets {A} (field : Database.t -> A) : Py A :=
  fun db => mkRun (Returns (field db)) db [].

Definition modify (f : Database.t -> Database.t) : Py unit :=
  fun db => mkRun (Returns tt) (f db) [].

Declare Scope py_scope.
Delimit Scope py_scope with py.
Notation "x <- m ;; k" := (bind m (fun x => k))
  (at level 61, m at next level, right associativity) : py_scope.
Notation "m ;; k" := (bind m (fun _ => k))
  (at level 61, right associativity) : py_scope.
Local Open Scope py_scope.

(** The message CPython attaches to the [ValueError] of [list.remove]. *)
Definition not_in_list : Exception :=
  ValueError "list.remove(x): x not in list".

(** [field.append(x)] and [field.remove(x)] on a list attribute of [self.db];
    a method whose body ends without [return] returns [None], which is [tt]. *)
Definition db_append {A} (field : Database.t -> list A)
    (set : list A -> Database.t -> Database.t) (x : A) : Py unit :=
  l <- gets field ;;
  modify (set (list_append l x)).

Definition db_remove {A} `{PyObject A} (field : Database.t -> list A)
    (set : list A -> Database.t -> Database.t) (x : A) : Py unit :=
  l <- gets field ;;
  match list_remove l x with
  | Some l' => modify (set l')
  | None => raise not_in_list
  end.

(* ================================================================= *)
(** ** Domain layer: interfaces

    The abstract base classes.  An implementation supplies the four methods;
    services and controllers receive one through their constructor. *)

Module IStudentRepository.
Record t := Build
  { add_student : Student.t -> Py unit;
    remove_student : Student.t -> Py unit;
    update_student : Student.t -> Py Student.t;
    get_all_students : Py (list Student.t) }.
End IStudentRepository.

Module ICourseRepository.
Record t := Build
  { add_course : Course.t -> Py unit;
    remove_course : Course.t -> Py unit;
    update_course : Course.t -> Py Course.t;
    get_all_courses : Py (list Course.t) }.
End ICourseRepository.

Module ITrainerRepository.
Record t := Build
  { add_trainer : Trainer.t -> Py unit;
    remove_trainer : Trainer.t -> Py unit;
    update_trainer : Trainer.t -> Py Trainer.t;
    get_all_trainers : Py (list Trainer.t) }.
End ITrainerRepository.

Module IStudentService.
Record t := Build
  { add_student : Student.t -> Py unit;
    remove_student : Student.t -> Py unit;
    update_student : Student.t -> Py Student.t;
    get_all_students : Py (list Student.t) }.
End IStudentService.

Module ICourseService.
Record t := Build
  { add_course : Course.t -> Py unit;
    remove_course : Course.t -> Py unit;
    update_course : Course.t -> Py Course.t;
    get_all_courses : Py (list Course.t) }.
End ICourseService.

Module ITrainerService.
Record t := Build
  { add_trainer : Trainer.t -> Py unit;
    remove_trainer : Trainer.t -> Py unit;
    update_trainer : Trainer.t -> Py Trainer.t;
    get_all_trainers : Py (list Trainer.t) }.
End ITrainerService.

(* ================================================================= *)
(** ** Infrastructure layer: repositories

    [self.db] is the one [Database] object of the program, the state of
    [Py]. *)

Module StudentRepository.

Definition add_student (student : Student.t) : Py unit :=
  print "[Repository] Adding student to database" ;;
  db_append Database.students Database.set_students student.

Definition remove_student (student : Student.t) : Py unit :=
  print "[Repository] Removing student from database" ;;
  db_remove Database.students Database.set_students student.

Definition update_student (student : Student.t) : Py Student.t :=
  print "[Repository] Updating student in database (demo only)" ;;
  ret student.

(** Python hands out the list object itself, not a copy; the value here is
    what that list holds when the call returns. *)
Definition get_all_students : Py (list Student.t) :=
  print "[Repository] Fetching all students from database" ;;
  gets Database.students.

Definition init : IStudentRepository.t :=
  IStudentRepository.Build
    add_student remove_student update_student get_all_students.

End StudentRepository.

Module CourseRepository.

Definition add_course (course : Course.t) : Py unit :=
  print "[Repository] Adding course to database" ;;
  db_append Database.courses Database.set_courses course.

Definition remove_course (course : Course.t) : Py unit :=
  print "[Repository] Removing course from database" ;;
  db_remove Database.courses Database.set_courses course.

Definition update_course (course : Course.t) : Py Course.t :=
  print "[Repository] Updating course in database (demo only)" ;;
  ret course.

Definition get_all_courses : Py (list Course.t) :=
  print "[Repository] Fetching all courses from database" ;;
  gets Database.courses.

Definition init : ICourseRepository.t :=
  ICourseRepository.Build
    add_course remove_course update_course get_all_courses.

End CourseRepository.

Module TrainerRepository.

Definition add_trainer (trainer : Trainer.t) : Py unit :=
  print "[Repository] Adding trainer to database" ;;
  db_append Database.trainers Database.set_trainers trainer.

Definition remove_trainer (trainer : Trainer.t) : Py unit :=
  print "[Repository] Removing trainer from database" ;;
  db_remove Database.trainers Database.set_trainers trainer.

Definition update_trainer (trainer : Trainer.t) : Py Trainer.t :=
  print "[Repository] Updating trainer in database (demo only)" ;;
  ret trainer.

Definition get_all_trainers : Py (list Trainer.t) :=
  print "[Repository] Fetching all trainers from database" ;;
  gets Database.trainers.

Definition init : ITrainerRepository.t :=
  ITrainerRepository.Build
    add_trainer remove_trainer update_trainer get_all_trainers.

End TrainerRepository.

(* ================================================================= *)
(** ** Service layer *)

Module StudentService.
Section Methods.
Variable student_repository : IStudentRepository.t.

(** The [for existing in ...] loop of [add_student] over the listed students.
    The result tells whether the body executed its [return]: [true] when the
    method is left from inside the loop, [false] when the loop runs off the
    end of the list. *)
Fixpoint add_student_loop (listed : list Student.t) (student : Student.t)
  : Py bool :=
  match listed with
  | [] => ret false
  | existing :: rest =>
      if Z.eqb (Student.student_id existing) (Student.student_id student)
      then
        print "[Service] Error: Student ID already exists." ;;
        ret true
      else add_student_loop rest student
  end.

Definition add_student (student : Student.t) : Py unit :=
  print "[Service] Checking if student can be added" ;;
  listed <- IStudentRepository.get_all_students student_repository ;;
  returned <- add_student_loop listed student ;;
  if returned : bool then ret tt
  else
    IStudentRepository.add_student student_repository student ;;
    print "[Service] Student added successfully.".

Definition remove_student (student : Student.t) : Py unit :=
  print "[Service] Removing student" ;;
  IStudentRepository.remove_student student_repository student.

Definition update_student (student : Student.t) : Py Student.t :=
  print "[Service] Updating student" ;;
  IStudentRepository.update_student student_repository student.

Definition get_all_students : Py (list Student.t) :=
  print "[Service] Retrieving all students" ;;
  IStudentRepository.get_all_students student_repository.

Definition init : IStudentService.t :=
  IStudentService.Build
    add_student remove_student update_student get_all_students.

End Methods.
End StudentService.

Module CourseService.
Section Methods.
Variable course_repository : ICourseRepository.t.

Definition add_course (course : Course.t) : Py unit :=
  print "[Service] Adding course" ;;
  ICourseRepository.add_course course_repository course.

Definition remove_course (course : Course.t) : Py unit :=
  print "[Service] Removing course" ;;
  ICourseRepository.remove_course course_repository course.

Definition update_course (course : Course.t) : Py Course.t :=
  print "[Service] Updating course" ;;
  ICourseRepository.update_course course_repository course.

Definition get_all_courses : Py (list Course.t) :=
  print "[Service] Retrieving all courses" ;;
  ICourseRepository.get_all_courses course_repository.

Definition init : ICourseService.t :=
  ICourseService.Build
    add_course remove_course update_course get_all_courses.

End Methods.
End CourseService.

Module TrainerService.
Section Methods.
Variable trainer_repository : ITrainerRepository.t.

Definition add_trainer (trainer : Trainer.t) : Py unit :=
  print "[Service] Adding trainer" ;;
  ITrainerRepository.add_trainer trainer_repository trainer.

Definition remove_trainer (trainer : Trainer.t) : Py unit :=
  print "[Service] Removing trainer" ;;
  ITrainerRepository.remove_trainer trainer_repository trainer.

Definition update_trainer (trainer : Trainer.t) : Py Trainer.t :=
  print "[Service] Updating trainer" ;;
  ITrainerRepository.update_trainer trainer_repository trainer.

Definition get_all_trainers : Py (list Trainer.t) :=
  print "[Service] Retrieving all trainers" ;;
  ITrainerRepository.get_all_trainers trainer_repository.

Definition init : ITrainerService.t :=
  ITrainerService.Build
    add_trainer remove_trainer update_trainer get_all_trainers.

End Methods.
End TrainerService.

(* ================================================================= *)
(** ** Presentation layer: controllers *)

Module StudentController.
Section Methods.
Variable student_service : IStudentService.t.

Definition add_student (student : Student.t) : Py unit :=
  print "[Controller] Request received to add student" ;;
  IStudentService.add_student student_service student.

Definition remove_student (student : Student.t) : Py unit :=
  print "[Controller] Request received to remove student" ;;
  IStudentService.remove_student student_service student.

Definition update_student (student : Student.t) : Py Student.t :=
  print "[Controller] Request received to update student" ;;
  IStudentService.update_student student_service student.

Definition get_all_students : Py (list Student.t) :=
  print "[Controller] Request received to list students" ;;
  IStudentService.get_all_students student_service.

End Methods.
End StudentController.

Module CourseController.
Section Methods.
Variable course_service : ICourseService.t.

Definition add_course (course : Course.t) : Py unit :=
  print "[Controller] Request received to add course" ;;
  ICourseService.add_course course_service course.

Definition remove_course (course : Course.t) : Py unit :=
  print "[Controller] Request received to remove course" ;;
  ICourseService.remove_course course_service course.

Definition update_course (course : Course.t) : Py Course.t :=
  print "[Controller] Request received to update course" ;;
  ICourseService.update_course course_service course.

Definition get_all_courses : Py (list Course.t) :=
  print "[Controller] Request received to list courses" ;;
  ICourseService.get_all_courses course_service.

End Methods.
End CourseController.

Module TrainerController.
Section Methods.
Variable trainer_service : ITrainerService.t.

Definition add_trainer (trainer : Trainer.t) : Py unit :=
  print "[Controller] Request received to add trainer" ;;
  ITrainerService.add_trainer trainer_service trainer.

Definition remove_trainer (trainer : Trainer.t) : Py unit :=
  print "[Controller] Request received to remove trainer" ;;
  ITrainerService.remove_trainer trainer_service trainer.

Definition update_trainer (trainer : Trainer.t) : Py Trainer.t :=
  print "[Controller] Request received to update trainer" ;;
  ITrainerService.update_trainer trainer_service trainer.

Definition get_all_trainers : Py (list Trainer.t) :=
  print "[Controller] Request received to list trainers" ;;
  ITrainerService.get_all_trainers trainer_service.

End Methods.
End TrainerController.

(* ================================================================= *)
(** ** Main program: dependency injection and the sample run *)

Definition student_repo : IStudentRepository.t := StudentRepository.init.
Definition course_repo : ICourseRepository.t := CourseRepository.init.
Definition trainer_repo : ITrainerRepository.t := TrainerRepository.init.

Definition student_service : IStudentService.t :=
  StudentService.init student_repo.
Definition course_service : ICourseService.t :=
  CourseService.init course_repo.
Definition trainer_service : ITrainerService.t :=
  TrainerService.init trainer_repo.

(** The seven objects the main program creates, numbered in creation order. *)
Definition trainer1 : Trainer.t :=
  Trainer.init 1%positive 1%Z "Mondol" "Python".
Definition trainer2 : Trainer.t :=
  Trainer.init 2%positive 2%Z "Ali" "Data Science".
Definition course1 : Course.t :=
  Course.init 3%positive 1%Z "Python Basics" (Trainer.trainer_id trainer1).
Definition course2 : Course.t :=
  Course.init 4%positive 2%Z "Machine Learning" (Trainer.trainer_id trainer2).
Definition student1 : Student.t :=
  Student.init 5%positive 1%Z "Rashed" "rashed@example.com".
Definition student2 : Student.t :=
  Student.init 6%positive 2%Z "Shuvo" "shuvo@example.com".
Definition student3 : Student.t :=
  Student.init 7%positive 1%Z "DuplicateRashed" "duplicate@example.com".

(** The calls of the main program up to the display loops, run on the fresh
    [Database()]. *)
Definition main_adds : Py unit :=
  TrainerController.add_trainer trainer_service trainer1 ;;
  TrainerController.add_trainer trainer_service trainer2 ;;
  CourseController.add_course course_service course1 ;;
  CourseController.add_course course_service course2 ;;
  StudentController.add_student student_service student1 ;;
  StudentController.add_student student_service student2 ;;
  StudentController.add_student student_service student3.

(* ================================================================= *)
(** ** One entry point for the thirty-six methods

    To quantify over "every entity kind, every layer, every method" the
    methods are indexed by kind, layer and request.  [call] only dispatches
    to the method of that name in the stack wired by the main program. *)

Inductive Kind := StudentKind | CourseKind | TrainerKind.
Inductive Layer := Repository | Service | Controller.

Definition Entity (k : Kind) : Type :=
  match k with
  | StudentKind => Student.t
  | CourseKind => Course.t
  | TrainerKind => Trainer.t
  end.

#[global] Instance Entity_object (k : Kind) : PyObject (Entity k) :=
  match k with
  | StudentKind => Student_object
  | CourseKind => Course_object
  | TrainerKind => Trainer_object
  end.

(** The key attribute of an entity. *)
Definition key (k : Kind) : Entity k -> Z :=
  match k with
  | StudentKind => Student.student_id
  | CourseKind => Course.course_id
  | TrainerKind => Trainer.trainer_id
  end.

(** The list of the database that holds the entities of a kind. *)
Definition collection (k : Kind) : Database.t -> list (Entity k) :=
  match k with
  | StudentKind => Database.students
  | CourseKind => Database.courses
  | TrainerKind => Database.trainers
  end.

Inductive Request (E : Type) :=
| Add (e : E)
| Remove (e : E)
| Update (e : E)
| GetAll.
Arguments Add {E} e.
Arguments Remove {E} e.
Arguments Update {E} e.
Arguments GetAll {E}.

(** What a method hands back: [None], an entity, or a list of entities. *)
Inductive Reply (E : Type) :=
| NoneReply
| EntityReply (e : E)
| ListReply (l : list E).
Arguments NoneReply {E}.
Arguments EntityReply {E} e.
Arguments ListReply {E} l.

Definition reply_none {E} (m : Py unit) : Py (Reply E) :=
  _ <- m ;; ret NoneReply.
Definition reply_entity {E} (m : Py E) : Py (Reply E) :=
  e <- m ;; ret (EntityReply e).
Definition reply_list {E} (m : Py (list E)) : Py (Reply E) :=
  l <- m ;; ret (ListReply l).

Definition student_call (ly : Layer) (rq : Request Student.t)
  : Py (Reply Student.t) :=
  match ly, rq with
  | Repository, Add s => reply_none (StudentRepository.add_student s)
  | Repository, Remove s => reply_none (StudentRepository.remove_student s)
  | Repository, Update s => reply_entity (StudentRepository.update_student s)
  | Repository, GetAll => reply_list StudentRepository.get_all_students
  | Service, Add s => reply_none (StudentService.add_student student_repo s)
  | Service, Remove s =>
      reply_none (StudentService.remove_student student_repo s)
  | Service, Update s =>
      reply_entity (StudentService.update_student student_repo s)
  | Service, GetAll =>
      reply_list (StudentService.get_all_students student_repo)
  | Controller, Add s =>
      reply_none (StudentController.add_student student_service s)
  | Controller, Remove s =>
      reply_none (StudentController.remove_student student_service s)
  | Controller, Update s =>
      reply_entity (StudentController.update_student student_service s)
  | Controller, GetAll =>
      reply_list (StudentController.get_all_students student_service)
  end.

Definition course_call (ly : Layer) (rq : Request Course.t)
  : Py (Reply Course.t) :=
  match ly, rq with
  | Repository, Add c => reply_none (CourseRepository.add_course c)
  | Repository, Remove c => reply_none (CourseRepository.remove_course c)
  | Repository, Update c => reply_entity (CourseRepository.update_course c)
  | Repository, GetAll => reply_list CourseRepository.get_all_courses
  | Service, Add c => reply_none (CourseService.add_course course_repo c)
  | Service, Remove c => reply_none (CourseService.remove_course course_repo c)
  | Service, Update c =>
      reply_entity (CourseService.update_course course_repo c)
  | Service, GetAll => reply_list (CourseService.get_all_courses course_repo)
  | Controller, Add c =>
      reply_none (CourseController.add_course course_service c)
  | Controller, Remove c =>
      reply_none (CourseController.remove_course course_service c)
  | Controller, Update c =>
      reply_entity (CourseController.update_course course_service c)
  | Controller, GetAll =>
      reply_list (CourseController.get_all_courses course_service)
  end.

Definition trainer_call (ly : Layer) (rq : Request Trainer.t)
  : Py (Reply Trainer.t) :=
  match ly, rq with
  | Repository, Add t => reply_none (TrainerRepository.add_trainer t)
  | Repository, Remove t => reply_none (TrainerRepository.remove_trainer t)
  | Repository, Update t => reply_entity (TrainerRepository.update_trainer t)
  | Repository, GetAll => reply_list TrainerRepository.get_all_trainers
  | Service, Add t => reply_none (TrainerService.add_trainer trainer_repo t)
  | Service, Remove t =>
      reply_none (TrainerService.remove_trainer trainer_repo t)
  | Service, Update t =>
      reply_entity (TrainerService.update_trainer trainer_repo t)
  | Service, GetAll =>
      reply_list (TrainerService.get_all_trainers trainer_repo)
  | Controller, Add t =>
      reply_none (TrainerController.add_trainer trainer_service t)
  | Controller, Remove t =>
      reply_none (TrainerController.remove_trainer trainer_service t)
  | Controller, Update t =>
      reply_entity (TrainerController.update_trainer trainer_service t)
  | Controller, GetAll =>
      reply_list (TrainerController.get_all_trainers trainer_service)
  end.

Definition call (k : Kind)
  : Layer -> Request (Entity k) -> Py (Reply (Entity k)) :=
  match k with
  | StudentKind => student_call
  | CourseKind => course_call
  | TrainerKind => trainer_call
  end.

(** A sequence of [add] calls, each made at its own layer, one after the
    other. *)
Fixpoint add_all (k : Kind) (calls : list (Layer * Entity k)) : Py unit :=
  match calls with
  | [] => ret tt
  | (ly, e) :: rest => call k ly (Add e) ;; add_all k rest
  end.

(* ================================================================= *)
(** ** Vocabulary of the properties *)

(** The line by which [StudentService.add_student] reports a duplicate. *)
Definition duplicate_line : string :=
  "[Service] Error: Student ID already exists.".

(** A student repository that differs from [StudentRepository] in its
    [add_student] only: whatever [forward] does stands for "the entity was
    forwarded to the repository". *)
Definition student_repo_with (forward : Student.t -> Py unit)
  : IStudentRepository.t :=
  IStudentRepository.Build forward
    StudentRepository.remove_student
    StudentRepository.update_student
    StudentRepository.get_all_students.

(** What [StudentService.add_student] prints, over [StudentRepository], when
    it declines and when it accepts. *)
Definition rejected_trace : list string :=
  ["[Service] Checking if student can be added";
   "[Repository] Fetching all students from database";
   duplicate_line].

Definition accepted_trace : list string :=
  ["[Service] Checking if student can be added";
   "[Repository] Fetching all students from database";
   "[Repository] Adding student to database";
   "[Service] Student added successfully."].

(** The line the Controller prints before it hands [add_student] to the
    Service. *)
Definition add_student_prefix (ly : Layer) : list string :=
  match ly with
  | Controller => ["[Controller] Request received to add student"]
  | _ => []
  end.

(** The invariant of the Service layer: no two stored students share a
    [student_id]. *)
Definition unique_student_ids (db : Database.t) : Prop :=
  NoDup (map Student.student_id (Database.students db)).

(** The three [add_student] calls of the main program; the third carries the
    [student_id] of the first. *)
Definition main_student_calls : list (Layer * Student.t) :=
  [(Controller, student1); (Controller, student2); (Controller, student3)].

(** The two [add_trainer] calls of the main program. *)
Definition main_trainer_calls : list (Layer * Trainer.t) :=
  [(Controller, trainer1); (Controller, trainer2)].

(** A database that holds the first two students of the main program. *)
Definition db_two_students : Database.t :=
  Database.mk [student1; student2] [] [].

(** The call ended in an exception, which is what its caller receives. *)
Definition surfaces_error {A} (r : Run A) : Prop :=
  exists e, outcome r = Raises e.

(** The run of a [remove] on the list [l] of the database, [trace] being
    what the layers print on the way down. *)
Definition remove_run {A} `{PyObject A} (l : list A) (x : A)
    (set : list A -> Database.t -> Database.t) (db : Database.t)
    (trace : list string) : Run unit :=
  match list_remove l x with
  | Some l' => mkRun (Returns tt) (set l' db) trace
  | None => mkRun (Raises not_in_list) db trace
  end.

(** The lines a call prints before it reaches [list.remove] (or any other
    statement of the repository method), by layer. *)
Definition layer_trace (controller service repository : string) (ly : Layer)
  : list string :=
  match ly with
  | Repository => [repository]
  | Service => [service; repository]
  | Controller => [controller; service; repository]
  end.

(** A run that returns [None], seen as a run of [call]. *)
Definition remove_reply {E} (r : Run unit) : Run (Reply E) :=
  match outcome r with
  | Returns _ => mkRun (Returns NoneReply) (db_after r) (stdout r)
  | Raises e => mkRun (Raises e) (db_after r) (stdout r)
  end.

(** The one [add] that can decline: [add_student] through the Service or the
    Controller. *)
Definition guarded (k : Kind) (ly : Layer) : bool :=
  match k, ly with
  | StudentKind, Service | StudentKind, Controller => true
  | _, _ => false
  end.

(** Every call of the sequence is a successful one: when its turn comes, with
    [present] the stored entities and all earlier calls having appended
    theirs, a guarded call brings a key that is not stored. *)
Fixpoint all_accepted (k : Kind) (present : list (Entity k))
    (calls : list (Layer * Entity k)) : Prop :=
  match calls with
  | [] => True
  | (ly, e) :: rest =>
      (guarded k ly = true -> ~ In (key k e) (map (key k) present)) /\
      all_accepted k (present ++ [e]) rest
  end.

(** [controller] does what [service] does and nothing more than printing
    [line] first: in every database it ends as [service] ends, leaves the
    database [service] leaves and prints [line] followed by what [service]
    prints. *)
Definition facade {A} (line : string) (controller service : Py A) : Prop :=
  forall db,
    controller db =
      mkRun (outcome (service db)) (db_after (service db))
        (line :: stdout (service db)).

(** The line a Controller method prints. *)
Definition controller_line (k : Kind) (rq : Request (Entity k)) : string :=
  match k, rq with
  | StudentKind, Add _ => "[Controller] Request received to add student"
  | StudentKind, Remove _ => "[Controller] Request received to remove student"
  | StudentKind, Update _ => "[Controller] Request received to update student"
  | StudentKind, GetAll => "[Controller] Request received to list students"
  | CourseKind, Add _ => "[Controller] Request received to add course"
  | CourseKind, Remove _ => "[Controller] Request received to remove course"
  | CourseKind, Update _ => "[Controller] Request received to update course"
  | CourseKind, GetAll => "[Controller] Request received to list courses"
  | TrainerKind, Add _ => "[Controller] Request received to add trainer"
  | TrainerKind, Remove _ => "[Controller] Request received to remove trainer"
  | TrainerKind, Update _ => "[Controller] Request received to update trainer"
  | TrainerKind, GetAll => "[Controller] Request received to list trainers"
  end.

(** Rebinding the contents of the list of a kind. *)
Definition set_collection (k : Kind)
  : list (Entity k) -> Database.t -> Database.t :=
  match k with
  | StudentKind => Database.set_students
  | CourseKind => Database.set_courses
  | TrainerKind => Database.set_trainers
  end.

(** The database of the sample run once its seven adds are done. *)
Definition db_sample : Database.t :=
  Database.mk [student1; student2] [course1; course2] [trainer1; trainer2].

(* ================================================================= *)
(** ** Main program: the listing *)

(** The decimal numeral of an integer: "0", "42", "-7". *)
Definition decimal (n : Z) : string := NilZero.string_of_int (Z.to_int n).

(** The number of digits of that numeral, the sign not counted. *)
Definition int_digits (n : Z) : nat :=
  match Z.to_int n with
  | Decimal.Pos d => Decimal.nb_digits d
  | Decimal.Neg d => Decimal.nb_digits d
  end.

(** CPython converts an integer to text only up to
    [sys.int_info.default_max_str_digits] digits; beyond, [str] raises
    this [ValueError]. *)
Definition int_max_str_digits : nat := 4300.

Definition int_str_limit : Exception :=
  ValueError
    "Exceeds the limit (4300 digits) for integer string conversion; use sys.set_int_max_str_digits() to increase the limit".

(** [str(n)] for a Python integer; [None] stands for the [ValueError]. *)
Definition py_str (n : Z) : option string :=
  if Nat.leb (int_digits n) int_max_str_digits then Some (decimal n)
  else None.

(** The arguments the listing hands to [print]: strings and integers. *)
Inductive PrintArg :=
| Str (text : string)
| Int (n : Z).

Definition arg_str (a : PrintArg) : option string :=
  match a with
  | Str text => Some text
  | Int n => py_str n
  end.

(** [print(a, b, ...)] writes its arguments one after the other, a space
    before each but the first, and the newline last.  [written] holds the
    texts already written on the line.  An argument whose [str] raises stops
    the call there: what was written so far, the space included, stays on
    standard output as a last entry that no newline ends. *)
Definition unfinished_line (written : list string) : list string :=
  match written with
  | [] => []
  | _ :: _ => [String.append (String.concat " " written) " "]
  end.

Fixpoint print_from (written : list string) (args : list PrintArg)
  : Py unit :=
  match args with
  | [] => print (String.concat " " written)
  | a :: rest =>
      match arg_str a with
      | Some text => print_from (written ++ [text]) rest
      | None =>
          fun db => mkRun (Raises int_str_limit) db (unfinished_line written)
      end
  end.

Definition print_args (args : list PrintArg) : Py unit :=
  print_from [] args.

Definition newline : string := String (Ascii.ascii_of_nat 10) EmptyString.

(** The three [for] loops that print what the controllers listed. *)
Fixpoint display_students (listed : list Student.t) : Py unit :=
  match listed with
  | [] => ret tt
  | s :: rest =>
      print_args [Str "ID:"; Int (Student.student_id s);
                  Str "| Name:"; Str (Student.name s);
                  Str "| Email:"; Str (Student.email s)] ;;
      display_students rest
  end.

Fixpoint display_trainers (listed : list Trainer.t) : Py unit :=
  match listed with
  | [] => ret tt
  | t :: rest =>
      print_args [Str "ID:"; Int (Trainer.trainer_id t);
                  Str "| Name:"; Str (Trainer.name t);
                  Str "| Expertise:"; Str (Trainer.expertise t)] ;;
      display_trainers rest
  end.

Fixpoint display_courses (listed : list Course.t) : Py unit :=
  match listed with
  | [] => ret tt
  | c :: rest =>
      print_args [Str "ID:"; Int (Course.course_id c);
                  Str "| Title:"; Str (Course.title c);
                  Str "| Trainer ID:"; Int (Course.trainer_id c)] ;;
      display_courses rest
  end.

(** The listing part of the main program, on whatever the database holds. *)
Definition main_display : Py unit :=
  print (String.append newline "--- Students in Database ---") ;;
  students <- StudentController.get_all_students student_service ;;
  display_students students ;;
  print (String.append newline "--- Trainers in Database ---") ;;
  trainers <- TrainerController.get_all_trainers trainer_service ;;
  display_trainers trainers ;;
  print (String.append newline "--- Courses in Database ---") ;;
  courses <- CourseController.get_all_courses course_service ;;
  display_courses courses.

(** The main program, from [db = Database()] to its last line. *)
Definition main : Py unit :=
  main_adds ;; main_display.

(** The lines recorded under [# output] at the end of onion.py. *)
Definition recorded_output : list string :=
  ["[Controller] Request received to add trainer";
   "[Service] Adding trainer";
   "[Repository] Adding trainer to database";
   "[Controller] Request received to add trainer";
   "[Service] Adding trainer";
   "[Repository] Adding trainer to database";
   "[Controller] Request received to add course";
   "[Service] Adding course";
   "[Repository] Adding course to database";
   "[Controller] Request received to add course";
   "[Service] Adding course";
   "[Repository] Adding course to database";
   "[Controller] Request received to add student";
   "[Service] Checking if student can be added";
   "[Repository] Fetching all students from database";
   "[Repository] Adding student to database";
   "[Service] Student added successfully.";
   "[Controller] Request received to add student";
   "[Service] Checking if student can be added";
   "[Repository] Fetching all students from database";
   "[Repository] Adding student to database";
   "[Service] Student added successfully.";
   "[Controller] Request received to add student";
   "[Service] Checking if student can be added";
   "[Repository] Fetching all students from database";
   "[Service] Error: Student ID already exists.";
   String.append newline "--- Students in Database ---";
   "[Controller] Request received to list students";
   "[Service] Retrieving all students";
   "[Repository] Fetching all students from database";
   "ID: 1 | Name: Rashed | Email: rashed@example.com";
   "ID: 2 | Name: Shuvo | Email: shuvo@example.com";
   String.append newline "--- Trainers in Database ---";
   "[Controller] Request received to list trainers";
   "[Service] Retrieving all trainers";
   "[Repository] Fetching all trainers from database";
   "ID: 1 | Name: Mondol | Expertise: Python";
   "ID: 2 | Name: Ali | Expertise: Data Science";
   String.append newline "--- Courses in Database ---";
   "[Controller] Request received to list courses";
   "[Service] Retrieving all courses";
   "[Repository] Fetching all courses from database";
   "ID: 1 | Title: Python Basics | Trainer ID: 1";
   "ID: 2 | Title: Machine Learning | Trainer ID: 2"].

(* ================================================================= *)
(** ** Sequences of calls on the three stacks *)

(** One call: a kind, a layer and a request. *)
Inductive AnyCall := MkCall (k : Kind) (ly : Layer) (rq : Request (Entity k)).

(** The call as a statement, its result dropped. *)
Definition run_call (c : AnyCall) : Py unit :=
  match c with
  | MkCall k ly rq => _ <- call k ly rq ;; ret tt
  end.

(** Calls made one after the other; an exception that nothing catches ends
    the sequence where it is raised. *)
Fixpoint run_calls (cs : list AnyCall) : Py unit :=
  match cs with
  | [] => ret tt
  | c :: rest => run_call c ;; run_calls rest
  end.

(** The one call that stores a student without the duplicate check:
    [StudentRepository.add_student] used directly. *)
Definition bypasses_check (c : AnyCall) : bool :=
  match c with
  | MkCall StudentKind Repository (Add _) => true
  | _ => false
  end.

(** The objects of a list are pairwise distinct. *)
Definition distinct_objects {A} `{PyObject A} (l : list A) : Prop :=
  NoDup (map py_id l).

(** An integer [str] converts: its numeral has no more digits than the
    limit. *)
Definition printable (n : Z) : Prop := int_digits n <= int_max_str_digits.

(** Every integer the listing prints is one [str] converts. *)
Definition all_printable (db : Database.t) : Prop :=
  Forall (fun s => printable (Student.student_id s))
    (Database.students db) /\
  Forall (fun t => printable (Trainer.trainer_id t))
    (Database.trainers db) /\
  Forall (fun c => printable (Course.course_id c) /\
                   printable (Course.trainer_id c))
    (Database.courses db).

(** The line the listing prints for an entity, its integers written as
    decimal numerals. *)
Definition student_line (s : Student.t) : string :=
  String.concat " "
    ["ID:"; decimal (Student.student_id s);
     "| Name:"; Student.name s;
     "| Email:"; Student.email s].

Definition trainer_line (t : Trainer.t) : string :=
  String.concat " "
    ["ID:"; decimal (Trainer.trainer_id t);
     "| Name:"; Trainer.name t;
     "| Expertise:"; Trainer.expertise t].

Definition course_line (c : Course.t) : string :=
  String.concat " "
    ["ID:"; decimal (Course.course_id c);
     "| Title:"; Course.title c;
     "| Trainer ID:"; decimal (Course.trainer_id c)].

(* ================================================================= *)
(** * The design-pattern scripts

    Factory_1.py, withoutFactory_1.py and AbstructFactory.py read four lines
    with [input], print, and use a dictionary and [try]/[except];
    Singleton.py and Without Singleton.py create objects.  Their programs
    run in a monad like [Py], over whatever state the script has. *)

Module Console.

Inductive Exception :=
| EOFError
| KeyError (key : string)
| ValueError (msg : string)
| AttributeError (msg : string).

(** What is written to the terminal: a line of [print], or the prompt of
    [input], which is not followed by a newline. *)
Inductive Output :=
| Line (text : string)
| Prompt (text : string).

Inductive Outcome (A : Type) :=
| Returns (a : A)
| Raises (e : Exception).
Arguments Returns {A} a.
Arguments Raises {A} e.

Record Run (S A : Type) := mkRun
  { outcome : Outcome A;
    state_after : S;
    stdout : list Output }.
Arguments mkRun {S A} _ _ _.
Arguments outcome {S A} _.
Arguments state_after {S A} _.
Arguments stdout {S A} _.

Definition M (S A : Type) : Type := S -> Run S A.

Definition ret {S A} (a : A) : M S A :=
  fun s => mkRun (Returns a) s [].

Definition bind {S A B} (m : M S A) (f : A -> M S B) : M S B :=
  fun s =>
    let r := m s in
    match outcome r with
    | Returns a =>
        let r' := f a (state_after r) in
        mkRun (outcome r') (state_after r') (stdout r ++ stdout r')
    | Raises e => mkRun (Raises e) (state_after r) (stdout r)
    end.

Definition raise {S A} (e : Exception) : M S A :=
  fun s => mkRun (Raises e) s [].

Definition print {S} (text : string) : M S unit :=
  fun s => mkRun (Returns tt) s [Line text].

(** [print(a, b, ...)]: the arguments, already strings, separated by one
    space. *)
Definition print_args {S} (args : list string) : M S unit :=
  print (String.concat " " args).

(** [try: body  except ...: handler].  [handler e] is the code of the
    [except] clause that matches the exception [e], [None] when no clause
    matches, in which case the exception goes on. *)
Definition try_except {S A} (body : M S A)
    (handler : Exception -> option (M S A)) : M S A :=
  fun s =>
    let r := body s in
    match outcome r with
    | Returns a => mkRun (Returns a) (state_after r) (stdout r)
    | Raises e =>
        match handler e with
        | Some h =>
            let r' := h (state_after r) in
            mkRun (outcome r') (state_after r') (stdout r ++ stdout r')
        | None => mkRun (Raises e) (state_after r) (stdout r)
        end
    end.

(** The lines still to be read from standard input. *)
Definition Stdin : Type := list string.

(** [input(prompt)]: writes the prompt and reads one line; [EOFError] when
    standard input has no line left. *)
Definition input (prompt : string) : M Stdin string :=
  fun stdin =>
    match stdin with
    | [] => mkRun (Raises EOFError) [] [Prompt prompt]
    | line :: rest => mkRun (Returns line) rest [Prompt prompt]
    end.

(** A dictionary literal with string keys, as the list of its items; the
    scripts write each key once. *)
Fixpoint dict_get {V} (d : list (string * V)) (k : string) : option V :=
  match d with
  | [] => None
  | (k', v) :: d' => if String.eqb k' k then Some v else dict_get d' k
  end.

(** [d[k]]: [KeyError] when the key is missing. *)
Definition getitem {S V} (d : list (string * V)) (k : string) : M S V :=
  match dict_get d k with
  | Some v => ret v
  | None => raise (KeyError k)
  end.

End Console.

Declare Scope console_scope.
Delimit Scope console_scope with console.
Notation "x <- m ;; k" := (Console.bind m (fun x => k))
  (at level 61, m at next level, right associativity) : console_scope.
Notation "m ;; k" := (Console.bind m (fun _ => k))
  (at level 61, right associativity) : console_scope.

(** [str.lower] on ASCII text: the letters A to Z become a to z.  The clients
    below take [lower] as a parameter; this instance runs them. *)
Definition ascii_lower_char (c : Ascii.ascii) : Ascii.ascii :=
  let n := Ascii.nat_of_ascii c in
  if andb (Nat.leb 65 n) (Nat.leb n 90) then Ascii.ascii_of_nat (n + 32)
  else c.

Fixpoint ascii_lower (s : string) : string :=
  match s with
  | EmptyString => EmptyString
  | String c s' => String (ascii_lower_char c) (ascii_lower s')
  end.

(* ================================================================= *)
(** ** Factory_1.py *)

Module Factory_1.
Local Open Scope string_scope.
Local Open Scope console_scope.

(** [MessageSender] and its three subclasses; each object holds [sender] and
    [receiver]. *)
Inductive MessageSender :=
| EmailSender (sender receiver : string)
| SMSender (sender receiver : string)
| PushSender (sender receiver : string).

Definition send_message {S} (self : MessageSender) (message : string)
  : Console.M S unit :=
  match self with
  | EmailSender sender receiver =>
      Console.print ("Sending email from " ++ sender ++ " to " ++ receiver
                     ++ " with message '" ++ message ++ "'")
  | SMSender sender receiver =>
      Console.print ("Sending SMS from " ++ sender ++ " to " ++ receiver
                     ++ " with message '" ++ message ++ "'")
  | PushSender sender receiver =>
      Console.print ("Sending Push Notification from " ++ sender ++ " to "
                     ++ receiver ++ " with message '" ++ message ++ "'")
  end.

(** [MessageSenderFactory.sender_map]: method name to class. *)
Definition sender_map : list (string * (string -> string -> MessageSender)) :=
  [("email", EmailSender); ("sms", SMSender); ("push", PushSender)].

Definition get_message_sender {S} (method sender receiver : string)
  : Console.M S MessageSender :=
  Console.try_except
    (cls <- Console.getitem sender_map method ;;
     Console.ret (cls sender receiver))
    (fun e =>
       match e with
       | Console.KeyError _ =>
           Some (Console.raise (Console.ValueError "Invalid method selected."))
       | _ => None
       end).

Section Client.
Variable lower : string -> string.

(** The script below the classes; [print(e)] prints the message of the
    [ValueError]. *)
Definition client : Console.M Console.Stdin unit :=
  msg <- Console.input "Enter your message: " ;;
  sender <- Console.input "Enter sender: " ;;
  receiver <- Console.input "Enter receiver: " ;;
  answer <- Console.input "Enter method (email/sms/push): " ;;
  let method := lower answer in
  Console.try_except
    (message_sender <- get_message_sender method sender receiver ;;
     send_message message_sender msg)
    (fun e =>
       match e with
       | Console.ValueError text => Some (Console.print text)
       | _ => None
       end).

End Client.
End Factory_1.

(* ================================================================= *)
(** ** withoutFactory_1.py *)

Module WithoutFactory_1.
Local Open Scope string_scope.
Local Open Scope console_scope.

(** The three classes have no attributes. *)
Inductive EmailSender := EmailSender_new.
Inductive SMSender := SMSender_new.
Inductive PushSender := PushSender_new.

Definition send_email {S} (self : EmailSender)
    (sender receiver message : string) : Console.M S unit :=
  Console.print ("Sending email from " ++ sender ++ " to " ++ receiver
                 ++ " with message '" ++ message ++ "'").

Definition send_sms {S} (self : SMSender)
    (sender receiver message : string) : Console.M S unit :=
  Console.print ("Sending SMS from " ++ sender ++ " to " ++ receiver
                 ++ " with message '" ++ message ++ "'").

Definition send_push {S} (self : PushSender)
    (sender receiver message : string) : Console.M S unit :=
  Console.print ("Sending Push Notification from " ++ sender ++ " to "
                 ++ receiver ++ " with message '" ++ message ++ "'").

Section Client.
Variable lower : string -> string.

Definition client : Console.M Console.Stdin unit :=
  msg <- Console.input "Enter your message: " ;;
  sender <- Console.input "Enter sender: " ;;
  receiver <- Console.input "Enter receiver: " ;;
  answer <- Console.input "Enter method (email/sms/push): " ;;
  let method := lower answer in
  if String.eqb method "email" then
    let email_sender := EmailSender_new in
    send_email email_sender sender receiver msg
  else if String.eqb method "sms" then
    let sms_sender := SMSender_new in
    send_sms sms_sender sender receiver msg
  else if String.eqb method "push" then
    let push_sender := PushSender_new in
    send_push push_sender sender receiver msg
  else
    Console.print "Invalid method selected.".

End Client.
End WithoutFactory_1.

(* ================================================================= *)
(** ** AbstructFactory.py *)

Module AbstractFactory.
Local Open Scope string_scope.
Local Open Scope console_scope.

(** Abstract products and their concrete classes. *)
Inductive MessageSender :=
| EmailSender (sender receiver : string)
| SMSender (sender receiver : string)
| PushSender (sender receiver : string).

Inductive MessageFormatter :=
| PlainTextFormatter
| HTMLFormatter.

Definition send_message {S} (self : MessageSender) (message : string)
  : Console.M S unit :=
  match self with
  | EmailSender sender receiver =>
      Console.print ("Email from " ++ sender ++ " to " ++ receiver
                     ++ ": " ++ message)
  | SMSender sender receiver =>
      Console.print ("SMS from " ++ sender ++ " to " ++ receiver
                     ++ ": " ++ message)
  | PushSender sender receiver =>
      Console.print ("Push from " ++ sender ++ " to " ++ receiver
                     ++ ": " ++ message)
  end.

Definition format_message (self : MessageFormatter) (message : string)
  : string :=
  match self with
  | PlainTextFormatter => "[PlainText] " ++ message
  | HTMLFormatter => "<html><body>" ++ message ++ "</body></html>"
  end.

(** The abstract factory and its three concrete factories. *)
Inductive MessageFactory :=
| EmailFactory
| SMSFactory
| PushFactory.

Definition create_sender (self : MessageFactory) (sender receiver : string)
  : MessageSender :=
  match self with
  | EmailFactory => EmailSender sender receiver
  | SMSFactory => SMSender sender receiver
  | PushFactory => PushSender sender receiver
  end.

Definition create_formatter (self : MessageFactory) : MessageFormatter :=
  match self with
  | EmailFactory => HTMLFormatter
  | SMSFactory => PlainTextFormatter
  | PushFactory => PlainTextFormatter
  end.

Definition factory_map : list (string * MessageFactory) :=
  [("email", EmailFactory); ("sms", SMSFactory); ("push", PushFactory)].

Section Client.
Variable lower : string -> string.

Definition client : Console.M Console.Stdin unit :=
  msg <- Console.input "Enter your message: " ;;
  sender <- Console.input "Enter sender: " ;;
  receiver <- Console.input "Enter receiver: " ;;
  answer <- Console.input "Enter method (email/sms/push): " ;;
  let method := lower answer in
  Console.try_except
    (factory <- Console.getitem factory_map method ;;
     let formatter := create_formatter factory in
     let formatted_msg := format_message formatter msg in
     let message_sender := create_sender factory sender receiver in
     send_message message_sender formatted_msg)
    (fun e =>
       match e with
       | Console.KeyError _ => Some (Console.print "Invalid method selected.")
       | _ => None
       end).

End Client.
End AbstractFactory.

(* ================================================================= *)
(** ** Without Singleton.py and Singleton.py *)

(** [str(b)] for a Python boolean. *)
Definition py_str_bool (b : bool) : string :=
  if b then "True" else "False".

(** The number of times [print] wrote the line [text]. *)
Definition times_printed (text : string) (out : list Console.Output) : nat :=
  length
    (filter
       (fun o =>
          match o with
          | Console.Line t => String.eqb t text
          | Console.Prompt _ => false
          end)
       out).

Module WithoutSingleton.
Local Open Scope string_scope.
Local Open Scope console_scope.

(** The state is the allocator: the identity the next new object gets.  A
    [Logger] has no attribute, so an instance is its identity. *)
Definition Heap : Type := ObjId.

(** [object.__new__(cls)]: an object that did not exist before. *)
Definition object_new : Console.M Heap ObjId :=
  fun next => Console.mkRun (Console.Returns next) (Pos.succ next) [].

Definition __init__ (self : ObjId) : Console.M Heap unit :=
  Console.print "Logger instance created".

Definition log (self : ObjId) (message : string) : Console.M Heap unit :=
  Console.print ("Log: " ++ message).

(** [Logger()]: a new object, initialised. *)
Definition Logger : Console.M Heap ObjId :=
  self <- object_new ;;
  __init__ self ;;
  Console.ret self.

Definition script : Console.M Heap unit :=
  log1 <- Logger ;;
  log2 <- Logger ;;
  log log1 "First message" ;;
  log log2 "Second message" ;;
  log log2 "Third message" ;;
  log log1 "Fourth message" ;;
  Console.print (py_str_bool (Pos.eqb log1 log2)).

(** [Logger()] called [n] times, the objects kept in call order. *)
Fixpoint construct (n : nat) : Console.M Heap (list ObjId) :=
  match n with
  | O => Console.ret []
  | S n' =>
      o <- Logger ;;
      rest <- construct n' ;;
      Console.ret (o :: rest)
  end.

End WithoutSingleton.

Module Singleton.
Local Open Scope string_scope.
Local Open Scope console_scope.

(** The state: the class attribute [Logger._instance] ([None] or a [Logger]
    object) and the allocator. *)
Record State := mkState
  { _instance : option ObjId;
    heap : ObjId }.

Definition object_new : Console.M State ObjId :=
  fun st =>
    Console.mkRun (Console.Returns (heap st))
      (mkState (_instance st) (Pos.succ (heap st))) [].

(** [cls._instance = value] *)
Definition set_instance (value : option ObjId) : Console.M State unit :=
  fun st => Console.mkRun (Console.Returns tt) (mkState value (heap st)) [].

(** [cls._instance] *)
Definition get_instance : Console.M State (option ObjId) :=
  fun st => Console.mkRun (Console.Returns (_instance st)) st [].

Section Repr.
(** What [print] shows for a [Logger] object: its default [repr], which
    carries the address of the object. *)
Variable repr : ObjId -> string.

Definition py_str (value : option ObjId) : string :=
  match value with
  | None => "None"
  | Some o => repr o
  end.

Definition __new__ : Console.M State (option ObjId) :=
  seen <- get_instance ;;
  Console.print_args ["Class instance: "; py_str seen] ;;
  tested <- get_instance ;;
  (match tested with
   | None =>
       o <- object_new ;;
       set_instance (Some o) ;;
       made <- get_instance ;;
       Console.print_args ["Object.__new__:"; py_str made] ;;
       Console.print "Logger instance created"
   | Some _ => Console.ret tt
   end) ;;
  get_instance.

(** [Logger()]: what [__new__] returns; [object.__init__] does nothing. *)
Definition Logger : Console.M State (option ObjId) := __new__.

Definition log (self : ObjId) (message : string) : Console.M State unit :=
  Console.print ("Log: " ++ message).

(** [receiver.log(message)]: [None] has no such method. *)
Definition call_log (receiver : option ObjId) (message : string)
  : Console.M State unit :=
  match receiver with
  | Some self => log self message
  | None =>
      Console.raise
        (Console.AttributeError "'NoneType' object has no attribute 'log'")
  end.

(** [a is b] *)
Definition py_is (a b : option ObjId) : bool :=
  match a, b with
  | None, None => true
  | Some x, Some y => Pos.eqb x y
  | _, _ => false
  end.

(** The script, from the [class] statement, which sets [_instance = None],
    to the last [print]. *)
Definition script : Console.M State unit :=
  set_instance None ;;
  log1 <- Logger ;;
  log2 <- Logger ;;
  call_log log1 "First message" ;;
  call_log log2 "Second message" ;;
  call_log log2 "Third message" ;;
  call_log log1 "Fourth message" ;;
  Console.print (py_str_bool (py_is log1 log2)).

Fixpoint construct (n : nat) : Console.M State (list (option ObjId)) :=
  match n with
  | O => Console.ret []
  | S n' =>
      o <- Logger ;;
      rest <- construct n' ;;
      Console.ret (o :: rest)
  end.

End Repr.
End Singleton.

(* ================================================================= *)
(** ** Vocabulary of the properties of the scripts *)

(** The four prompts of the three clients, as they reach the terminal. *)
Definition client_prompts : list Console.Output :=
  [Console.Prompt "Enter your message: ";
   Console.Prompt "Enter sender: ";
   Console.Prompt "Enter receiver: ";
   Console.Prompt "Enter method (email/sms/push): "].

(** The method names the clients know. *)
Definition valid_method (method : string) : Prop :=
  method = "email" \/ method = "sms" \/ method = "push".

(** The line [__init__] (or [__new__]) prints when a [Logger] is made. *)
Definition created_line : string := "Logger instance created".

(** What a client does with its standard input: with fewer than four lines
    it raises [EOFError] at the [input] that finds none, all lines read and
    the prompts up to that one written; with four or more it returns, leaves
    the lines after the fourth, and has written the four prompts and one
    line. *)
Definition reads_four_lines (stdin : Console.Stdin)
    (r : Console.Run Console.Stdin unit) : Prop :=
  (length stdin < 4 ->
   Console.outcome r = Console.Raises Console.EOFError /\
   Console.state_after r = [] /\
   Console.stdout r = firstn (S (length stdin)) client_prompts) /\
  (4 <= length stdin ->
   Console.outcome r = Console.Returns tt /\
   Console.state_after r = skipn 4 stdin /\
   exists text, Console.stdout r = client_prompts ++ [Console.Line text]).

(* ================================================================= *)
(** * Properties *)

(** ** Sequencing *)

Lemma bind_returns {A B} (m : Py A) (f : A -> Py B) db a :
  outcome (m db) = Returns a ->
  bind m f db =
    mkRun (outcome (f a (db_after (m db))))
          (db_after (f a (db_after (m db))))
          (stdout (m db) ++ stdout (f a (db_after (m db)))).
Proof. intros E. unfold bind. rewrite E. reflexivity. Qed.

Lemma bind_raises {A B} (m : Py A) (f : A -> Py B) db e :
  outcome (m db) = Raises e ->
  bind m f db = mkRun (Raises e) (db_after (m db)) (stdout (m db)).
Proof. intros E. unfold bind. rewrite E. reflexivity. Qed.

(** The three monad laws, run by run. *)
Lemma run_eta {A} (r : Run A) : mkRun (outcome r) (db_after r) (stdout r) = r.
Proof. destruct r; reflexivity. Qed.

Lemma bind_ret_l {A B} (a : A) (f : A -> Py B) db :
  bind (ret a) f db = f a db.
Proof. unfold bind, ret; simpl. apply run_eta. Qed.

Lemma bind_ret_r {A} (m : Py A) db : bind m ret db = m db.
Proof.
  unfold bind, ret. destruct (m db) as [[a | e] db' out]; simpl.
  - now rewrite app_nil_r.
  - reflexivity.
Qed.

Lemma bind_assoc {A B C} (m : Py A) (f : A -> Py B) (g : B -> Py C) db :
  bind (bind m f) g db = bind m (fun a => bind (f a) g) db.
Proof.
  unfold bind. destruct (m db) as [[a | e] db' out]; simpl; [| reflexivity].
  destruct (f a db') as [[b | e] db'' out']; simpl; [| reflexivity].
  now rewrite app_assoc.
Qed.

(** ** [list.remove] *)

Section ListRemove.
Context {A : Type} `{PyObject A}.

Lemma py_in_nil (x : A) : ~ py_in x [].
Proof. intros (y & [] & _). Qed.

Lemma py_in_cons (x y : A) (l : list A) :
  py_in x (y :: l) <-> py_id y = py_id x \/ py_in x l.
Proof.
  unfold py_in; split.
  - intros (z & [-> | Hz] & E); [now left | right; eauto].
  - intros [E | (z & Hz & E)]; [exists y | exists z]; simpl; auto.
Qed.

Lemma py_eq_true (x y : A) : py_eq y x = true <-> py_id y = py_id x.
Proof. unfold py_eq. apply Pos.eqb_eq. Qed.

Lemma py_eq_false (x y : A) : py_eq y x = false <-> py_id y <> py_id x.
Proof. unfold py_eq. apply Pos.eqb_neq. Qed.

Lemma list_remove_absent (l : list A) (x : A) :
  ~ py_in x l -> list_remove l x = None.
Proof.
  induction l as [| y l IH]; intros Hx; simpl; [reflexivity |].
  rewrite py_in_cons in Hx.
  destruct (py_eq y x) eqn:E.
  - apply py_eq_true in E. tauto.
  - rewrite IH by tauto. reflexivity.
Qed.

Lemma list_remove_present (l : list A) (x : A) :
  py_in x l ->
  exists front y back,
    l = front ++ y :: back /\ py_id y = py_id x /\ ~ py_in x front /\
    list_remove l x = Some (front ++ back).
Proof.
  induction l as [| z l IH]; intros Hx.
  - now apply py_in_nil in Hx.
  - simpl. destruct (py_eq z x) eqn:E.
    + exists [], z, l. apply py_eq_true in E.
      repeat split; auto using py_in_nil.
    + apply py_eq_false in E. apply py_in_cons in Hx.
      destruct Hx as [Hx | Hx]; [contradiction |].
      destruct (IH Hx) as (front & y & back & -> & Ey & Hfront & ->).
      exists (z :: front), y, back. repeat split; auto.
      rewrite py_in_cons. tauto.
Qed.

End ListRemove.

(** ** The duplicate check of [StudentService.add_student] *)

Lemma add_student_loop_found (listed : list Student.t) student db :
  In (Student.student_id student) (map Student.student_id listed) ->
  StudentService.add_student_loop listed student db =
    mkRun (Returns true) db [duplicate_line].
Proof.
  induction listed as [| existing rest IH]; simpl; [tauto |].
  intros [E | Hin].
  - rewrite E, Z.eqb_refl. reflexivity.
  - destruct (Z.eqb _ _); [reflexivity | auto].
Qed.

Lemma add_student_loop_fresh (listed : list Student.t) student db :
  ~ In (Student.student_id student) (map Student.student_id listed) ->
  StudentService.add_student_loop listed student db =
    mkRun (Returns false) db [].
Proof.
  induction listed as [| existing rest IH]; simpl; [reflexivity |].
  intros Hnot.
  destruct (Z.eqb_spec (Student.student_id existing)
                       (Student.student_id student)) as [E | _].
  - tauto.
  - apply IH. tauto.
Qed.

Lemma service_add_duplicate forward student db :
  In (Student.student_id student)
     (map Student.student_id (Database.students db)) ->
  StudentService.add_student (student_repo_with forward) student db =
    mkRun (Returns tt) db rejected_trace.
Proof.
  intros Hin. unfold StudentService.add_student, bind; simpl.
  rewrite (add_student_loop_found _ _ _ Hin). reflexivity.
Qed.

Lemma service_add_fresh student db :
  ~ In (Student.student_id student)
       (map Student.student_id (Database.students db)) ->
  StudentService.add_student student_repo student db =
    mkRun (Returns tt)
      (Database.set_students (Database.students db ++ [student]) db)
      accepted_trace.
Proof.
  intros Hnot. unfold StudentService.add_student, bind; simpl.
  rewrite (add_student_loop_fresh _ _ _ Hnot). reflexivity.
Qed.

(** ** What one [add] does, at each layer *)

Lemma controller_add_student student db :
  StudentController.add_student student_service student db =
    let r := StudentService.add_student student_repo student db in
    mkRun (outcome r) (db_after r)
      ("[Controller] Request received to add student" :: stdout r).
Proof.
  unfold StudentController.add_student, bind, print; simpl.
  destruct (outcome _); reflexivity.
Qed.

Lemma call_add_student_cases ly (student : Entity StudentKind) db :
  ly <> Repository ->
  (In (Student.student_id student)
      (map Student.student_id (Database.students db)) /\
   call StudentKind ly (Add student) db =
     mkRun (Returns NoneReply) db (add_student_prefix ly ++ rejected_trace))
  \/
  (~ In (Student.student_id student)
        (map Student.student_id (Database.students db)) /\
   call StudentKind ly (Add student) db =
     mkRun (Returns NoneReply)
       (Database.set_students (Database.students db ++ [student]) db)
       (add_student_prefix ly ++ accepted_trace)).
Proof.
  intros Hly.
  destruct (in_dec Z.eq_dec (Student.student_id student)
              (map Student.student_id (Database.students db))) as [Hin | Hnot].
  - left. split; [exact Hin |].
    pose proof (service_add_duplicate StudentRepository.add_student
                  student db Hin) as E.
    change (student_repo_with StudentRepository.add_student)
      with student_repo in E.
    destruct ly; [contradiction | |]; simpl;
      unfold reply_none, bind; rewrite ?controller_add_student;
      rewrite E; reflexivity.
  - right. split; [exact Hnot |].
    pose proof (service_add_fresh student db Hnot) as E.
    destruct ly; [contradiction | |]; simpl;
      unfold reply_none, bind; rewrite ?controller_add_student;
      rewrite E; reflexivity.
Qed.

Lemma call_add_student_guarded ly student db :
  ly <> Repository ->
  let r := call StudentKind ly (Add student) db in
  outcome r = Returns NoneReply /\
  ((In (Student.student_id student)
       (map Student.student_id (Database.students db)) /\
    db_after r = db) \/
   (~ In (Student.student_id student)
         (map Student.student_id (Database.students db)) /\
    db_after r =
      Database.set_students (Database.students db ++ [student]) db)).
Proof.
  intros Hly. cbv zeta.
  destruct (call_add_student_cases ly student db Hly) as [[H ->] | [H ->]];
    simpl; auto.
Qed.

Lemma call_add_unguarded k ly e db :
  k <> StudentKind \/ ly = Repository ->
  call k ly (Add e) db =
    mkRun (Returns NoneReply)
      (match k return Entity k -> Database.t with
       | StudentKind => fun e =>
           Database.set_students (Database.students db ++ [e]) db
       | CourseKind => fun e =>
           Database.set_courses (Database.courses db ++ [e]) db
       | TrainerKind => fun e =>
           Database.set_trainers (Database.trainers db ++ [e]) db
       end e)
      (stdout (call k ly (Add e) db)).
Proof.
  intros [Hk | ->]; destruct k; try contradiction;
    try destruct ly; reflexivity.
Qed.

Lemma call_add_returns k ly e db :
  outcome (call k ly (Add e) db) = Returns NoneReply.
Proof.
  destruct k.
  - destruct ly; [reflexivity | |];
      apply call_add_student_guarded; discriminate.
  - rewrite call_add_unguarded by (left; discriminate). reflexivity.
  - rewrite call_add_unguarded by (left; discriminate). reflexivity.
Qed.

Lemma add_all_cons k ly e rest db :
  add_all k ((ly, e) :: rest) db =
    let r := call k ly (Add e) db in
    let r' := add_all k rest (db_after r) in
    mkRun (outcome r') (db_after r') (stdout r ++ stdout r').
Proof.
  simpl.
  apply (bind_returns (call k ly (Add e)) (fun _ => add_all k rest)
           db NoneReply).
  apply call_add_returns.
Qed.

(** A property of the database that every [add] of the sequence preserves
    holds after the whole sequence, and the sequence returns normally. *)
Lemma add_all_invariant k (P : Database.t -> Prop) (ok : Layer -> Prop) :
  (forall ly e db, ok ly -> P db -> P (db_after (call k ly (Add e) db))) ->
  forall calls db,
    Forall (fun c => ok (fst c)) calls -> P db ->
    outcome (add_all k calls db) = Returns tt /\
    P (db_after (add_all k calls db)).
Proof.
  intros Hstep calls.
  induction calls as [| [ly e] rest IH]; intros db Hok HP.
  - split; [reflexivity | exact HP].
  - rewrite add_all_cons; simpl.
    inversion Hok as [| ? ? Hly Hrest]; subst.
    apply IH; [exact Hrest | apply Hstep; [exact Hly | exact HP]].
Qed.

Lemma NoDup_snoc {A} (l : list A) (x : A) :
  NoDup l -> ~ In x l -> NoDup (l ++ [x]).
Proof.
  induction l as [| y l IH]; simpl; intros Hl Hx.
  - constructor; [tauto | constructor].
  - inversion Hl as [| ? ? Hy Hl']; subst.
    constructor.
    + rewrite in_app_iff; simpl. intuition congruence.
    + apply IH; tauto.
Qed.

Lemma guarded_add_keeps_unique ly student db :
  ly <> Repository ->
  unique_student_ids db ->
  unique_student_ids (db_after (call StudentKind ly (Add student) db)).
Proof.
  intros Hly Hdb.
  destruct (call_add_student_guarded ly student db Hly)
    as [_ [[_ ->] | [Hnot ->]]]; [exact Hdb |].
  unfold unique_student_ids; simpl. rewrite map_app; simpl.
  apply NoDup_snoc; assumption.
Qed.

(** C1: through the Service or the Controller, starting from the empty
    database, every sequence of [add_student] calls returns normally and
    leaves at most one student per [student_id]; and in any database, an
    [add_student] whose [student_id] already occurs returns with the database
    exactly as it was, having printed the three lines of the rejected path,
    whatever the repository's own [add_student] would have done: the student
    is never handed to it. *)
Theorem service_add_student_unique :
  (forall calls : list (Layer * Student.t),
      Forall (fun c => fst c <> Repository) calls ->
      outcome (add_all StudentKind calls Database.init) = Returns tt /\
      NoDup (map Student.student_id
               (Database.students
                  (db_after (add_all StudentKind calls Database.init))))) /\
  (forall (forward : Student.t -> Py unit) student db,
      In (Student.student_id student)
         (map Student.student_id (Database.students db)) ->
      StudentService.add_student (student_repo_with forward) student db =
        mkRun (Returns tt) db rejected_trace /\
      StudentController.add_student
          (StudentService.init (student_repo_with forward)) student db =
        mkRun (Returns tt) db
          ("[Controller] Request received to add student" :: rejected_trace)).
Proof.
  split.
  - intros calls Hcalls.
    apply (add_all_invariant StudentKind unique_student_ids
             (fun ly => ly <> Repository)).
    + intros ly e db. apply guarded_add_keeps_unique.
    + exact Hcalls.
    + constructor.
  - intros forward student db Hin. split.
    + apply service_add_duplicate, Hin.
    + unfold StudentController.add_student, bind.
      cbn [IStudentService.add_student StudentService.init].
      rewrite (service_add_duplicate _ _ _ Hin). reflexivity.
Qed.

Lemma service_add_student_unique_witness :
  (Forall (fun c : Layer * Student.t => fst c <> Repository)
     main_student_calls /\
   In (Student.student_id student3)
      (map Student.student_id (Database.students db_two_students))) /\
  (NoDup (map Student.student_id
            (Database.students
               (db_after
                  (add_all StudentKind main_student_calls Database.init)))) /\
   StudentController.add_student
       (StudentService.init (student_repo_with StudentRepository.add_student))
       student3 db_two_students =
     mkRun (Returns tt) db_two_students
       ("[Controller] Request received to add student" :: rejected_trace)).
Proof.
  assert (Hcalls : Forall (fun c : Layer * Student.t => fst c <> Repository)
                     main_student_calls)
    by (repeat constructor; discriminate).
  assert (Hin : In (Student.student_id student3)
                  (map Student.student_id (Database.students db_two_students)))
    by (simpl; auto).
  split; [split; assumption |].
  split.
  - apply (proj1 service_add_student_unique main_student_calls Hcalls).
  - apply (proj2 service_add_student_unique
             StudentRepository.add_student student3 db_two_students Hin).
Defined.

(** ** Rejected adds and the caller *)

Lemma returns_not_error {A} (r : Run A) (a : A) :
  outcome r = Returns a -> ~ surfaces_error r.
Proof. intros E [e He]. congruence. Qed.

(** C2, as stated, fails on the sample run: the third [add_student] of the
    main program carries a [student_id] that is already stored, yet neither
    the Service nor the Controller call ends in an exception, and the caller
    receives the very [None] that the accepted second add returned. *)
Lemma duplicate_add_raises_nothing :
  In (Student.student_id student3)
     (map Student.student_id (Database.students db_two_students)) /\
  ~ surfaces_error
      (StudentService.add_student student_repo student3 db_two_students) /\
  ~ surfaces_error
      (StudentController.add_student student_service student3
         db_two_students) /\
  outcome (StudentController.add_student student_service student3
             db_two_students) =
  outcome (StudentController.add_student student_service student2
             (Database.mk [student1] [] [])).
Proof.
  split; [simpl; auto |].
  split; [apply returns_not_error with (a := tt); reflexivity |].
  split; [apply returns_not_error with (a := tt); reflexivity |].
  reflexivity.
Qed.

(** C2, amended: when [add_student] is called through the Service or the
    Controller with a [student_id] that is already stored, no exception is
    raised; the call returns [None], as it does for a student it accepts; the
    rejection is reported by the printed line "[Service] Error: Student ID
    already exists." only; and the database is exactly as it was before the
    call. *)
Theorem duplicate_add_is_printed_not_raised ly student db :
  ly <> Repository ->
  In (Student.student_id student)
     (map Student.student_id (Database.students db)) ->
  let r := call StudentKind ly (Add student) db in
  outcome r = Returns NoneReply /\
  In duplicate_line (stdout r) /\
  db_after r = db /\
  (forall other, outcome (call StudentKind ly (Add other) db) = outcome r).
Proof.
  intros Hly Hin r.
  assert (E : StudentService.add_student student_repo student db =
              mkRun (Returns tt) db rejected_trace)
    by exact (service_add_duplicate StudentRepository.add_student _ _ Hin).
  assert (Hr : outcome r = Returns NoneReply) by apply call_add_returns.
  split; [exact Hr |].
  split; [| split].
  - subst r.
    destruct ly; [contradiction | |]; simpl;
      unfold reply_none, bind; rewrite ?controller_add_student;
      rewrite E; simpl; unfold duplicate_line; tauto.
  - destruct (call_add_student_guarded ly student db Hly)
      as [_ [[_ Hdb] | [Hnot _]]]; [exact Hdb | contradiction].
  - intros other. rewrite Hr. apply call_add_returns.
Qed.

Lemma duplicate_add_is_printed_not_raised_witness :
  (Controller <> Repository /\
   In (Student.student_id student3)
      (map Student.student_id (Database.students db_two_students))) /\
  (let r := call StudentKind Controller (Add student3) db_two_students in
   outcome r = Returns NoneReply /\
   In duplicate_line (stdout r) /\
   db_after r = db_two_students /\
   (forall other,
       outcome (call StudentKind Controller (Add other) db_two_students) =
       outcome r)).
Proof.
  assert (Hly : Controller <> Repository) by discriminate.
  assert (Hin : In (Student.student_id student3)
                  (map Student.student_id (Database.students db_two_students)))
    by (simpl; auto).
  split; [split; assumption |].
  exact (duplicate_add_is_printed_not_raised
           Controller student3 db_two_students Hly Hin).
Defined.

(** ** Removing *)

Lemma student_remove_run ly student db :
  call StudentKind ly (Remove student) db =
    remove_reply
      (remove_run (Database.students db) student Database.set_students db
         (layer_trace "[Controller] Request received to remove student"
            "[Service] Removing student"
            "[Repository] Removing student from database" ly)).
Proof.
  destruct ly; simpl;
    unfold reply_none, StudentController.remove_student,
      StudentService.remove_student, StudentRepository.remove_student,
      db_remove, bind, print; simpl;
    unfold remove_reply, remove_run;
    destruct (list_remove _ _); reflexivity.
Qed.

Lemma course_remove_run ly course db :
  call CourseKind ly (Remove course) db =
    remove_reply
      (remove_run (Database.courses db) course Database.set_courses db
         (layer_trace "[Controller] Request received to remove course"
            "[Service] Removing course"
            "[Repository] Removing course from database" ly)).
Proof.
  destruct ly; simpl;
    unfold reply_none, CourseController.remove_course,
      CourseService.remove_course, CourseRepository.remove_course,
      db_remove, bind, print; simpl;
    unfold remove_reply, remove_run;
    destruct (list_remove _ _); reflexivity.
Qed.

Lemma trainer_remove_run ly trainer db :
  call TrainerKind ly (Remove trainer) db =
    remove_reply
      (remove_run (Database.trainers db) trainer Database.set_trainers db
         (layer_trace "[Controller] Request received to remove trainer"
            "[Service] Removing trainer"
            "[Repository] Removing trainer from database" ly)).
Proof.
  destruct ly; simpl;
    unfold reply_none, TrainerController.remove_trainer,
      TrainerService.remove_trainer, TrainerRepository.remove_trainer,
      db_remove, bind, print; simpl;
    unfold remove_reply, remove_run;
    destruct (list_remove _ _); reflexivity.
Qed.

(** Rewrites a [remove] call of whatever kind into its [remove_run]. *)
Ltac remove_run_of k :=
  destruct k; cbn [collection Entity_object Entity] in *;
  [rewrite student_remove_run | rewrite course_remove_run
   | rewrite trainer_remove_run];
  unfold remove_reply, remove_run.

(** C3: for every entity kind and at every layer, [remove] of an entity that
    is not in its collection ends in the [ValueError] of [list.remove] (the
    "not found" failure), which reaches the caller, and the database, hence
    the collection with its elements and their order, is as before the
    call. *)
Theorem remove_absent_raises k ly (e : Entity k) db :
  ~ py_in e (collection k db) ->
  outcome (call k ly (Remove e) db) = Raises not_in_list /\
  db_after (call k ly (Remove e) db) = db.
Proof.
  intros Habsent.
  remove_run_of k;
    rewrite (list_remove_absent _ _ Habsent); split; reflexivity.
Qed.

Lemma remove_absent_raises_witness :
  ~ py_in (student3 : Entity StudentKind)
      (collection StudentKind db_two_students) /\
  outcome (call StudentKind Controller (Remove student3) db_two_students) =
    Raises not_in_list /\
  db_after (call StudentKind Controller (Remove student3) db_two_students) =
    db_two_students.
Proof.
  assert (Habsent : ~ py_in (student3 : Entity StudentKind)
                      (collection StudentKind db_two_students)).
  { intros (y & [<- | [<- | []]] & E); discriminate E. }
  split; [exact Habsent |].
  exact (remove_absent_raises StudentKind Controller student3
           db_two_students Habsent).
Defined.

(** ** Listing and order *)

Lemma call_get_all k ly db :
  outcome (call k ly GetAll db) = Returns (ListReply (collection k db)) /\
  db_after (call k ly GetAll db) = db.
Proof. destruct k, ly; split; reflexivity. Qed.

Lemma call_update_db k ly (e : Entity k) db :
  db_after (call k ly (Update e) db) = db.
Proof. destruct k, ly; reflexivity. Qed.

Lemma call_add_accepted k ly (e : Entity k) db :
  (guarded k ly = true ->
   ~ In (key k e) (map (key k) (collection k db))) ->
  collection k (db_after (call k ly (Add e) db)) = collection k db ++ [e].
Proof.
  intros Hfresh.
  destruct (guarded k ly) eqn:G.
  - destruct k; try discriminate G.
    assert (Hly : ly <> Repository) by (intros ->; discriminate G).
    destruct (call_add_student_guarded ly e db Hly)
      as [_ [[Hin _] | [_ ->]]]; [| reflexivity].
    exfalso. apply Hfresh; [reflexivity | exact Hin].
  - rewrite call_add_unguarded.
    + destruct k; reflexivity.
    + destruct k; [right | left; discriminate | left; discriminate].
      destruct ly; [reflexivity | discriminate G | discriminate G].
Qed.

Lemma add_all_accepted k calls :
  forall db,
    all_accepted k (collection k db) calls ->
    outcome (add_all k calls db) = Returns tt /\
    collection k (db_after (add_all k calls db)) =
      collection k db ++ map snd calls.
Proof.
  induction calls as [| [ly e] rest IH]; intros db Hacc.
  - split; [reflexivity | simpl; now rewrite app_nil_r].
  - destruct Hacc as [Hfresh Hrest].
    rewrite add_all_cons; simpl.
    pose proof (call_add_accepted k ly e db Hfresh) as Estep.
    rewrite <- Estep in Hrest.
    destruct (IH _ Hrest) as [Hout Hcoll].
    split; [exact Hout |].
    rewrite Hcoll, Estep, <- app_assoc. reflexivity.
Qed.

(** C4: for every entity kind, after a sequence of successful [add] calls
    (made at any layers, from any database) [get_all], at any layer, returns
    the entities stored before followed by the added ones in the order of the
    calls; and [remove] of an entity that is in its collection returns
    normally, takes out the first item that is this entity and nothing else,
    and leaves the items before and after it in their order. *)
Theorem get_all_keeps_order_of_adds :
  (forall k (calls : list (Layer * Entity k)) ly db,
      all_accepted k (collection k db) calls ->
      outcome (bind (add_all k calls) (fun _ => call k ly GetAll) db) =
        Returns (ListReply (collection k db ++ map snd calls))) /\
  (forall k ly (e : Entity k) db,
      py_in e (collection k db) ->
      exists front x back,
        collection k db = front ++ x :: back /\
        py_id x = py_id e /\
        ~ py_in e front /\
        outcome (call k ly (Remove e) db) = Returns NoneReply /\
        collection k (db_after (call k ly (Remove e) db)) = front ++ back).
Proof.
  split.
  - intros k calls ly db Hacc.
    destruct (add_all_accepted k calls db Hacc) as [Hout Hcoll].
    rewrite (bind_returns _ _ _ _ Hout); simpl.
    rewrite (proj1 (call_get_all k ly _)), Hcoll. reflexivity.
  - intros k ly e db Hin.
    destruct (list_remove_present _ _ Hin)
      as (front & x & back & Hsplit & Hid & Hfront & Hrm).
    exists front, x, back.
    repeat (split; [assumption |]).
    remove_run_of k; rewrite Hrm; split; reflexivity.
Qed.

Lemma get_all_keeps_order_of_adds_witness :
  (all_accepted TrainerKind (collection TrainerKind Database.init)
     main_trainer_calls /\
   py_in (student1 : Entity StudentKind)
     (collection StudentKind db_two_students)) /\
  (outcome (bind (add_all TrainerKind main_trainer_calls)
              (fun _ => call TrainerKind Controller GetAll) Database.init) =
     Returns (ListReply [trainer1; trainer2]) /\
   exists front x back,
     collection StudentKind db_two_students = front ++ x :: back /\
     py_id x = py_id student1 /\
     ~ py_in (student1 : Entity StudentKind) front /\
     outcome (call StudentKind Service (Remove student1) db_two_students) =
       Returns NoneReply /\
     collection StudentKind
       (db_after (call StudentKind Service (Remove student1)
                    db_two_students)) = front ++ back).
Proof.
  assert (Hacc : all_accepted TrainerKind
                   (collection TrainerKind Database.init) main_trainer_calls)
    by (simpl; repeat split; discriminate).
  assert (Hin : py_in (student1 : Entity StudentKind)
                  (collection StudentKind db_two_students))
    by (exists student1; split; [left |]; reflexivity).
  split; [split; assumption |].
  split.
  - exact (proj1 get_all_keeps_order_of_adds TrainerKind main_trainer_calls
             Controller Database.init Hacc).
  - exact (proj2 get_all_keeps_order_of_adds StudentKind Service student1
             db_two_students Hin).
Defined.

(** ** Unchecked adds *)

(** C5: for every entity kind, the Repository's [add] returns normally and
    appends the entity to its collection, whatever the collection holds: no
    key is looked at, so when the key of the entity is already stored the
    entity is appended all the same and the collection then holds that key
    more than once. *)
Theorem repository_add_appends k (e : Entity k) db :
  let r := call k Repository (Add e) db in
  outcome r = Returns NoneReply /\
  collection k (db_after r) = collection k db ++ [e] /\
  (In (key k e) (map (key k) (collection k db)) ->
   ~ NoDup (map (key k) (collection k (db_after r)))).
Proof.
  cbv zeta.
  assert (E : collection k (db_after (call k Repository (Add e) db)) =
              collection k db ++ [e]) by (destruct k; reflexivity).
  split; [destruct k; reflexivity |].
  split; [exact E |].
  intros Hin Hnodup. rewrite E, map_app in Hnodup.
  induction (map (key k) (collection k db)) as [| z keys IH];
    simpl in *; [exact Hin |].
  inversion Hnodup as [| ? ? Hz Hkeys]; subst.
  destruct Hin as [-> | Hin]; [| exact (IH Hin Hkeys)].
  apply Hz, in_or_app. right. left. reflexivity.
Qed.

Lemma repository_add_appends_witness :
  In (key StudentKind student3)
     (map (key StudentKind) (collection StudentKind db_two_students)) /\
  (let r := call StudentKind Repository (Add student3) db_two_students in
   outcome r = Returns NoneReply /\
   collection StudentKind (db_after r) =
     collection StudentKind db_two_students ++ [student3] /\
   ~ NoDup (map (key StudentKind) (collection StudentKind (db_after r)))).
Proof.
  assert (Hin : In (key StudentKind student3)
                  (map (key StudentKind)
                     (collection StudentKind db_two_students)))
    by (simpl; auto).
  split; [exact Hin |].
  destruct (repository_add_appends StudentKind student3 db_two_students)
    as (Hout & Hcoll & Hdup).
  split; [exact Hout |]. split; [exact Hcoll |]. exact (Hdup Hin).
Defined.

(** The Repository stores a second student with [student_id] 1. *)
Example repository_add_student_duplicate :
  Database.students
    (db_after (StudentRepository.add_student student3 db_two_students)) =
    [student1; student2; student3].
Proof. reflexivity. Qed.




(** Two courses that share [course_id] 1, added through the Service. *)
Example course_service_keeps_both :
  let twin := Course.init 8%positive 1%Z "Python Basics II" 2%Z in
  outcome (bind (add_all CourseKind [(Service, course1); (Service, twin)])
             (fun _ => call CourseKind Service GetAll) Database.init) =
    Returns (ListReply [course1; twin]).
Proof. reflexivity. Qed.

(** ** Update *)

(** C7: for every entity kind and at every layer, [update] returns the entity
    it was given and leaves the database as it was. *)
Theorem update_is_identity k ly (e : Entity k) db :
  outcome (call k ly (Update e) db) = Returns (EntityReply e) /\
  db_after (call k ly (Update e) db) = db.
Proof. destruct k, ly; split; reflexivity. Qed.

(** ** The Controller is a facade *)

Lemma print_then {A} (line : string) (m : Py A) db :
  (print line ;; m) db =
    mkRun (outcome (m db)) (db_after (m db)) (line :: stdout (m db)).
Proof. reflexivity. Qed.

(** Wrapping the value a method returns does not depend on the line printed
    in front of the method. *)
Lemma reply_after_print {A E} (wrap : A -> Reply E) line (m : Py A) db :
  let c := (a <- (print line ;; m) ;; ret (wrap a)) db in
  let s := (a <- m ;; ret (wrap a)) db in
  outcome c = outcome s /\ db_after c = db_after s /\
  stdout c = line :: stdout s.
Proof.
  cbv zeta.
  assert (Ep : outcome ((print line ;; m) db) = outcome (m db))
    by reflexivity.
  destruct (outcome (m db)) as [a | e] eqn:Em.
  - rewrite (bind_returns (print line ;; m) _ db a Ep),
      (bind_returns m _ db a Em).
    rewrite print_then. simpl. auto.
  - rewrite (bind_raises (print line ;; m) _ db e Ep),
      (bind_raises m _ db e Em).
    rewrite print_then. simpl. auto.
Qed.

(** C8: for every entity kind and each of [add], [remove], [update] and
    [get_all], the Controller method is a facade of the method of that name
    of the service it was built with, whatever implementation of the service
    interface that is: called in the same database it ends as the service
    method ends (same returned value or same exception), leaves the database
    the service method leaves and prints what the service method prints, after
    its own request line; it does nothing else.  In the stack wired by the
    main program this makes every Controller call agree with the Service
    call. *)
Theorem controller_same_as_service :
  (forall (student_service : IStudentService.t),
      (forall student,
          facade "[Controller] Request received to add student"
            (StudentController.add_student student_service student)
            (IStudentService.add_student student_service student)) /\
      (forall student,
          facade "[Controller] Request received to remove student"
            (StudentController.remove_student student_service student)
            (IStudentService.remove_student student_service student)) /\
      (forall student,
          facade "[Controller] Request received to update student"
            (StudentController.update_student student_service student)
            (IStudentService.update_student student_service student)) /\
      facade "[Controller] Request received to list students"
        (StudentController.get_all_students student_service)
        (IStudentService.get_all_students student_service)) /\
  (forall (course_service : ICourseService.t),
      (forall course,
          facade "[Controller] Request received to add course"
            (CourseController.add_course course_service course)
            (ICourseService.add_course course_service course)) /\
      (forall course,
          facade "[Controller] Request received to remove course"
            (CourseController.remove_course course_service course)
            (ICourseService.remove_course course_service course)) /\
      (forall course,
          facade "[Controller] Request received to update course"
            (CourseController.update_course course_service course)
            (ICourseService.update_course course_service course)) /\
      facade "[Controller] Request received to list courses"
        (CourseController.get_all_courses course_service)
        (ICourseService.get_all_courses course_service)) /\
  (forall (trainer_service : ITrainerService.t),
      (forall trainer,
          facade "[Controller] Request received to add trainer"
            (TrainerController.add_trainer trainer_service trainer)
            (ITrainerService.add_trainer trainer_service trainer)) /\
      (forall trainer,
          facade "[Controller] Request received to remove trainer"
            (TrainerController.remove_trainer trainer_service trainer)
            (ITrainerService.remove_trainer trainer_service trainer)) /\
      (forall trainer,
          facade "[Controller] Request received to update trainer"
            (TrainerController.update_trainer trainer_service trainer)
            (ITrainerService.update_trainer trainer_service trainer)) /\
      facade "[Controller] Request received to list trainers"
        (TrainerController.get_all_trainers trainer_service)
        (ITrainerService.get_all_trainers trainer_service)) /\
  (forall k (rq : Request (Entity k)) db,
      outcome (call k Controller rq db) = outcome (call k Service rq db) /\
      db_after (call k Controller rq db) =
        db_after (call k Service rq db) /\
      stdout (call k Controller rq db) =
        controller_line k rq :: stdout (call k Service rq db)).
Proof.
  split; [| split; [| split]].
  - intros service. unfold facade. repeat split; intros; apply print_then.
  - intros service. unfold facade. repeat split; intros; apply print_then.
  - intros service. unfold facade. repeat split; intros; apply print_then.
  - intros k rq db.
    destruct k; destruct rq as [e | e | e |]; cbn [controller_line];
      first
        [ exact (reply_after_print (fun _ : unit => NoneReply) _ _ db)
        | exact (reply_after_print EntityReply _ _ db)
        | exact (reply_after_print ListReply _ _ db) ].
Qed.

(** ** Each stack keeps to its own collection *)

Lemma set_collection_same k db : set_collection k (collection k db) db = db.
Proof. destruct k, db; reflexivity. Qed.

Lemma set_collection_other k k' (l : list (Entity k)) db :
  k' <> k -> collection k' (set_collection k l db) = collection k' db.
Proof. destruct k, k'; intros Hk; try reflexivity; contradiction. Qed.

(** Whatever the call, the database it leaves differs from the one it found
    in the collection of its own kind at most. *)
Lemma call_writes_own_collection k ly (rq : Request (Entity k)) db :
  exists l, db_after (call k ly rq db) = set_collection k l db.
Proof.
  destruct rq as [e | e | e |].
  - destruct (guarded k ly) eqn:G.
    + destruct k; try discriminate G.
      assert (Hly : ly <> Repository) by (intros ->; discriminate G).
      destruct (call_add_student_guarded ly e db Hly)
        as [_ [[_ ->] | [_ ->]]].
      * exists (collection StudentKind db).
        symmetry; apply set_collection_same.
      * eexists; reflexivity.
    + rewrite call_add_unguarded.
      * destruct k; eexists; reflexivity.
      * destruct k; [right | left; discriminate | left; discriminate].
        destruct ly; [reflexivity | discriminate G | discriminate G].
  - remove_run_of k;
      destruct (list_remove _ _) as [l' |]; simpl;
      first [ now (exists l')
            | eexists; symmetry; apply (set_collection_same StudentKind)
            | eexists; symmetry; apply (set_collection_same CourseKind)
            | eexists; symmetry; apply (set_collection_same TrainerKind) ].
  - rewrite call_update_db.
    exists (collection k db). symmetry; apply set_collection_same.
  - rewrite (proj2 (call_get_all k ly db)).
    exists (collection k db). symmetry; apply set_collection_same.
Qed.

(** C9: a call on the stack of one entity kind, whatever the layer and the
    method, and whether it returns or raises, leaves the collections of the
    two other kinds exactly as they were. *)
Theorem other_collections_untouched k k' ly (rq : Request (Entity k)) db :
  k' <> k ->
  collection k' (db_after (call k ly rq db)) = collection k' db.
Proof.
  intros Hk.
  destruct (call_writes_own_collection k ly rq db) as [l ->].
  apply set_collection_other, Hk.
Qed.

Example main_adds_run : db_after (main_adds Database.init) = db_sample.
Proof. reflexivity. Qed.

Lemma other_collections_untouched_witness :
  CourseKind <> StudentKind /\
  collection CourseKind
    (db_after (call StudentKind Controller (Remove student1) db_sample)) =
    collection CourseKind db_sample.
Proof.
  assert (Hk : CourseKind <> StudentKind) by discriminate.
  split; [exact Hk |].
  exact (other_collections_untouched StudentKind CourseKind Controller
           (Remove student1) db_sample Hk).
Defined.

(** ** The duplicate check reads [student_id] only *)

(** C10: two students with the same [student_id], whatever their names and
    e-mail addresses, offered to [add_student] through the Service or the
    Controller in the same database, meet the same decision: either both are
    rejected and the database stays as it was, or both are accepted and each
    is appended; in both cases the two calls return the same value and print
    the same lines. *)
Theorem add_decision_reads_id_only ly (s1 s2 : Entity StudentKind) db :
  ly <> Repository ->
  Student.student_id s1 = Student.student_id s2 ->
  let r1 := call StudentKind ly (Add s1) db in
  let r2 := call StudentKind ly (Add s2) db in
  outcome r1 = outcome r2 /\
  stdout r1 = stdout r2 /\
  ((db_after r1 = db /\ db_after r2 = db /\
    In duplicate_line (stdout r1)) \/
   (Database.students (db_after r1) = Database.students db ++ [s1] /\
    Database.students (db_after r2) = Database.students db ++ [s2] /\
    ~ In duplicate_line (stdout r1))).
Proof.
  intros Hly Hid. cbv zeta.
  destruct (call_add_student_cases ly s1 db Hly) as [[H1 ->] | [H1 ->]];
    destruct (call_add_student_cases ly s2 db Hly) as [[H2 ->] | [H2 ->]];
    rewrite Hid in H1; try contradiction; simpl.
  - split; [reflexivity |]. split; [reflexivity |]. left.
    repeat split. apply in_or_app. right. simpl. tauto.
  - split; [reflexivity |]. split; [reflexivity |]. right.
    repeat split.
    destruct ly; simpl; unfold duplicate_line; intuition discriminate.
Qed.

Lemma add_decision_reads_id_only_witness :
  (Service <> Repository /\
   Student.student_id student1 = Student.student_id student3) /\
  (let r1 := call StudentKind Service (Add student1) db_two_students in
   let r2 := call StudentKind Service (Add student3) db_two_students in
   outcome r1 = outcome r2 /\
   stdout r1 = stdout r2 /\
   ((db_after r1 = db_two_students /\ db_after r2 = db_two_students /\
     In duplicate_line (stdout r1)) \/
    (Database.students (db_after r1) =
       Database.students db_two_students ++ [student1] /\
     Database.students (db_after r2) =
       Database.students db_two_students ++ [student3] /\
     ~ In duplicate_line (stdout r1)))).
Proof.
  assert (Hly : Service <> Repository) by discriminate.
  assert (Hid : Student.student_id student1 = Student.student_id student3)
    by reflexivity.
  split; [split; assumption |].
  exact (add_decision_reads_id_only Service student1 student3
           db_two_students Hly Hid).
Defined.

(* ================================================================= *)
(** * Further properties of onion.py *)

(** ** The main program *)

(** The embedding run on the main program prints what the source records as
    its output. *)
Example main_prints_recorded_output :
  stdout (main Database.init) = recorded_output /\
  outcome (main Database.init) = Returns tt /\
  db_after (main Database.init) = db_sample.
Proof. repeat split; reflexivity. Qed.

(** ** More on [list.remove] *)

Section ListRemoveResult.
Context {A : Type} `{PyObject A}.

Lemma list_remove_some (l l' : list A) (x : A) :
  list_remove l x = Some l' ->
  exists front y back,
    l = front ++ y :: back /\ py_id y = py_id x /\ ~ py_in x front /\
    l' = front ++ back.
Proof.
  revert l'. induction l as [| z l IH]; intros l' Hrm; simpl in Hrm.
  - discriminate Hrm.
  - destruct (py_eq z x) eqn:E.
    + injection Hrm as <-. apply py_eq_true in E.
      exists [], z, l. repeat split; auto using py_in_nil.
    + destruct (list_remove l x) as [rest |]; [| discriminate Hrm].
      injection Hrm as <-. apply py_eq_false in E.
      destruct (IH rest eq_refl) as (front & y & back & -> & Ey & Hfront & ->).
      exists (z :: front), y, back. repeat split; auto.
      rewrite py_in_cons. tauto.
Qed.

Lemma list_remove_some_in (l l' : list A) (x : A) :
  list_remove l x = Some l' -> py_in x l.
Proof.
  intros Hrm.
  destruct (list_remove_some l l' x Hrm) as (front & y & back & -> & Ey & _).
  exists y. split; [apply in_elt | exact Ey].
Qed.

Lemma list_remove_none (l : list A) (x : A) :
  list_remove l x = None -> ~ py_in x l.
Proof.
  intros Hrm Hin.
  destruct (list_remove_present l x Hin) as (? & ? & ? & _ & _ & _ & E).
  congruence.
Qed.

Lemma py_in_app (x : A) (l l' : list A) :
  py_in x (l ++ l') <-> py_in x l \/ py_in x l'.
Proof.
  unfold py_in; split.
  - intros (y & Hy & E). apply in_app_or in Hy.
    destruct Hy; [left | right]; eauto.
  - intros [(y & Hy & E) | (y & Hy & E)]; exists y; split; auto;
      apply in_or_app; auto.
Qed.

Lemma list_remove_snoc (l : list A) (x : A) :
  ~ py_in x l -> list_remove (l ++ [x]) x = Some l.
Proof.
  induction l as [| z l IH]; intros Hx; simpl.
  - unfold py_eq. now rewrite Pos.eqb_refl.
  - rewrite py_in_cons in Hx.
    destruct (py_eq z x) eqn:E.
    + apply py_eq_true in E. tauto.
    + rewrite IH by tauto. reflexivity.
Qed.

Lemma filter_absent (l : list A) (x : A) :
  ~ py_in x l -> filter (fun y => negb (py_eq y x)) l = l.
Proof.
  induction l as [| z l IH]; intros Hx; simpl; [reflexivity |].
  rewrite py_in_cons in Hx.
  destruct (py_eq z x) eqn:E.
  - apply py_eq_true in E. tauto.
  - simpl. rewrite IH by tauto. reflexivity.
Qed.

Lemma distinct_objects_split (front back : list A) (y x : A) :
  distinct_objects (front ++ y :: back) -> py_id y = py_id x ->
  ~ py_in x back.
Proof.
  unfold distinct_objects. rewrite map_app; simpl.
  intros Hnd Ey (z & Hz & Ez).
  apply NoDup_remove_2 in Hnd. apply Hnd, in_or_app. right.
  rewrite Ey, <- Ez. now apply in_map.
Qed.

End ListRemoveResult.

(** ** What a call leaves behind, request by request *)

Lemma collection_set_collection k (l : list (Entity k)) db :
  collection k (set_collection k l db) = l.
Proof. destruct k; reflexivity. Qed.

Lemma set_collection_twice k (l l' : list (Entity k)) db :
  set_collection k l (set_collection k l' db) = set_collection k l db.
Proof. destruct k; reflexivity. Qed.

Lemma call_update_outcome k ly (e : Entity k) db :
  outcome (call k ly (Update e) db) = Returns (EntityReply e).
Proof. destruct k, ly; reflexivity. Qed.

Lemma call_remove_outcome k ly (e : Entity k) db :
  match list_remove (collection k db) e with
  | Some l' =>
      outcome (call k ly (Remove e) db) = Returns NoneReply /\
      db_after (call k ly (Remove e) db) = set_collection k l' db
  | None =>
      outcome (call k ly (Remove e) db) = Raises not_in_list /\
      db_after (call k ly (Remove e) db) = db
  end.
Proof.
  remove_run_of k; destruct (list_remove _ _); split; reflexivity.
Qed.

(** X3: a call raises exactly when it is a [remove] of an entity that is not
    in its collection; the exception is then the [ValueError] of
    [list.remove] and the database is as it was.  [add], [update] and
    [get_all] never raise, at any layer. *)
Theorem call_raises_only_on_absent_remove k ly (rq : Request (Entity k)) db :
  (surfaces_error (call k ly rq db) <->
   exists e, rq = Remove e /\ ~ py_in e (collection k db)) /\
  (forall ex,
      outcome (call k ly rq db) = Raises ex ->
      ex = not_in_list /\ db_after (call k ly rq db) = db).
Proof.
  destruct rq as [e | e | e |].
  - pose proof (call_add_returns k ly e db) as E. split.
    + split; [intros [ex Hex]; congruence | intros (x & Hx & _); discriminate].
    + intros ex Hex. congruence.
  - pose proof (call_remove_outcome k ly e db) as Hrm.
    destruct (list_remove (collection k db) e) as [l' |] eqn:R;
      destruct Hrm as [Hout Hdb].
    + split.
      * split; [intros [ex Hex]; congruence |].
        intros (x & Hx & Habsent). injection Hx as <-.
        exfalso. apply Habsent. exact (list_remove_some_in _ _ _ R).
      * intros ex Hex. congruence.
    + split.
      * split; [| intros _; exists not_in_list; exact Hout].
        intros _. exists e. split; [reflexivity |].
        exact (list_remove_none _ _ R).
      * intros ex Hex. rewrite Hout in Hex. injection Hex as <-. auto.
  - pose proof (call_update_outcome k ly e db) as E. split.
    + split; [intros [ex Hex]; congruence | intros (x & Hx & _); discriminate].
    + intros ex Hex. congruence.
  - pose proof (proj1 (call_get_all k ly db)) as E. split.
    + split; [intros [ex Hex]; congruence | intros (x & Hx & _); discriminate].
    + intros ex Hex. congruence.
Qed.

(** ** The uniqueness invariant under every call *)

Lemma bind_ret_db_after {A B} (m : Py A) (b : B) db :
  db_after (bind m (fun _ => ret b) db) = db_after (m db).
Proof. unfold bind. destruct (outcome (m db)); reflexivity. Qed.

Lemma run_call_db_after k ly (rq : Request (Entity k)) db :
  db_after (run_call (MkCall k ly rq) db) = db_after (call k ly rq db).
Proof. apply bind_ret_db_after. Qed.

Lemma NoDup_map_remove_middle {A B} (f : A -> B) (front back : list A) y :
  NoDup (map f (front ++ y :: back)) -> NoDup (map f (front ++ back)).
Proof.
  rewrite !map_app; simpl. apply NoDup_remove_1.
Qed.

Lemma call_keeps_unique k ly (rq : Request (Entity k)) db :
  bypasses_check (MkCall k ly rq) = false ->
  unique_student_ids db ->
  unique_student_ids (db_after (call k ly rq db)).
Proof.
  intros Hcheck Hdb.
  destruct k.
  - destruct rq as [e | e | e |].
    + apply guarded_add_keeps_unique; [| exact Hdb].
      intros ->. discriminate Hcheck.
    + pose proof (call_remove_outcome StudentKind ly e db) as Hrm.
      destruct (list_remove (collection StudentKind db) e) as [l' |] eqn:R;
        destruct Hrm as [_ ->]; [| exact Hdb].
      destruct (list_remove_some _ _ _ R)
        as (front & y & back & Hsplit & _ & _ & ->).
      unfold unique_student_ids in *. simpl in *.
      rewrite Hsplit in Hdb.
      exact (NoDup_map_remove_middle _ _ _ _ Hdb).
    + now rewrite call_update_db.
    + now rewrite (proj2 (call_get_all StudentKind ly db)).
  - destruct (call_writes_own_collection CourseKind ly rq db) as [l ->].
    exact Hdb.
  - destruct (call_writes_own_collection TrainerKind ly rq db) as [l ->].
    exact Hdb.
Qed.

(** X1: as long as no student is stored through
    [StudentRepository.add_student] directly, every sequence of calls on the
    three stacks (whatever the methods and the layers, whether the sequence
    runs to its end or is cut short by an exception) leaves a database in
    which no two students share a [student_id], if it starts in one. *)
Theorem calls_keep_student_ids_unique cs db :
  Forall (fun c => bypasses_check c = false) cs ->
  unique_student_ids db ->
  unique_student_ids (db_after (run_calls cs db)).
Proof.
  intros Hcs. revert db.
  induction Hcs as [| [k ly rq] rest Hc Hrest IH]; intros db Hdb.
  - exact Hdb.
  - pose proof (call_keeps_unique k ly rq db Hc Hdb) as Hstep.
    rewrite <- run_call_db_after in Hstep.
    cbn [run_calls].
    destruct (outcome (run_call (MkCall k ly rq) db)) as [[] | ex] eqn:E.
    + rewrite (bind_returns _ _ _ _ E). simpl. apply IH, Hstep.
    + rewrite (bind_raises _ _ _ _ E). simpl. exact Hstep.
Qed.

Lemma calls_keep_student_ids_unique_witness :
  (Forall (fun c => bypasses_check c = false)
     [MkCall StudentKind Controller (Add student1);
      MkCall StudentKind Service (Add student3);
      MkCall CourseKind Repository (Add course1);
      MkCall StudentKind Repository (Remove student3);
      MkCall StudentKind Controller (Add student2)] /\
   unique_student_ids Database.init) /\
  unique_student_ids
    (db_after
       (run_calls
          [MkCall StudentKind Controller (Add student1);
           MkCall StudentKind Service (Add student3);
           MkCall CourseKind Repository (Add course1);
           MkCall StudentKind Repository (Remove student3);
           MkCall StudentKind Controller (Add student2)]
          Database.init)).
Proof.
  assert (Hcs : Forall (fun c => bypasses_check c = false)
                  [MkCall StudentKind Controller (Add student1);
                   MkCall StudentKind Service (Add student3);
                   MkCall CourseKind Repository (Add course1);
                   MkCall StudentKind Repository (Remove student3);
                   MkCall StudentKind Controller (Add student2)])
    by (repeat constructor).
  assert (Hdb : unique_student_ids Database.init) by constructor.
  split; [split; assumption |].
  exact (calls_keep_student_ids_unique _ _ Hcs Hdb).
Defined.

(** ** Adding, then removing *)

Lemma call_add_accepted_db k ly (e : Entity k) db :
  (guarded k ly = true ->
   ~ In (key k e) (map (key k) (collection k db))) ->
  db_after (call k ly (Add e) db) =
    set_collection k (collection k db ++ [e]) db.
Proof.
  intros Hfresh.
  pose proof (call_add_accepted k ly e db Hfresh) as Hcoll.
  destruct (call_writes_own_collection k ly (Add e) db) as [l Hdb].
  rewrite Hdb in Hcoll. rewrite collection_set_collection in Hcoll.
  now rewrite Hdb, Hcoll.
Qed.

(** X2: an entity that is not in its collection and whose [add] is accepted
    is taken out again by [remove]: the sequence returns normally and the
    database is back to what it was before the [add], at whatever layers the
    two calls are made. *)
Theorem add_then_remove_restores k ly ly' (e : Entity k) db :
  ~ py_in e (collection k db) ->
  (guarded k ly = true ->
   ~ In (key k e) (map (key k) (collection k db))) ->
  let r := bind (call k ly (Add e)) (fun _ => call k ly' (Remove e)) db in
  outcome r = Returns NoneReply /\ db_after r = db.
Proof.
  intros Habsent Hfresh. cbv zeta.
  rewrite (bind_returns _ _ _ _ (call_add_returns k ly e db)). simpl.
  rewrite (call_add_accepted_db k ly e db Hfresh).
  pose proof (call_remove_outcome k ly' e
                (set_collection k (collection k db ++ [e]) db)) as Hrm.
  rewrite collection_set_collection in Hrm.
  rewrite (list_remove_snoc _ _ Habsent) in Hrm.
  destruct Hrm as [-> ->].
  split; [reflexivity |].
  now rewrite set_collection_twice, set_collection_same.
Qed.

Lemma add_then_remove_restores_witness :
  (~ py_in (student3 : Entity StudentKind)
       (collection StudentKind (Database.mk [student2] [] [])) /\
   (guarded StudentKind Controller = true ->
    ~ In (key StudentKind student3)
         (map (key StudentKind)
            (collection StudentKind (Database.mk [student2] [] []))))) /\
  (let r := bind (call StudentKind Controller (Add student3))
              (fun _ => call StudentKind Service (Remove student3))
              (Database.mk [student2] [] []) in
   outcome r = Returns NoneReply /\
   db_after r = Database.mk [student2] [] []).
Proof.
  assert (Habsent : ~ py_in (student3 : Entity StudentKind)
                      (collection StudentKind (Database.mk [student2] [] []))).
  { intros (y & [<- | []] & E); discriminate E. }
  assert (Hfresh : guarded StudentKind Controller = true ->
                   ~ In (key StudentKind student3)
                        (map (key StudentKind)
                           (collection StudentKind
                              (Database.mk [student2] [] [])))).
  { intros _ [E | []]; discriminate E. }
  split; [split; assumption |].
  exact (add_then_remove_restores StudentKind Controller Service student3
           (Database.mk [student2] [] []) Habsent Hfresh).
Defined.

(** ** Adding the same student twice *)

(** X4: through the Service or the Controller, [add_student] leaves the
    [student_id] it was given stored, whether the student was accepted or
    declined; so the same call made a second time, at either layer, is
    declined: it returns [None], prints the duplicate line and leaves the
    database as the first call left it. *)
Theorem guarded_add_twice_is_once ly ly' (s : Entity StudentKind) db :
  ly <> Repository -> ly' <> Repository ->
  let once := call StudentKind ly (Add s) db in
  let twice := call StudentKind ly' (Add s) (db_after once) in
  In (Student.student_id s)
     (map Student.student_id (Database.students (db_after once))) /\
  outcome twice = Returns NoneReply /\
  db_after twice = db_after once /\
  In duplicate_line (stdout twice).
Proof.
  intros Hly Hly'. cbv zeta.
  assert (Hin : In (Student.student_id s)
                  (map Student.student_id
                     (Database.students
                        (db_after (call StudentKind ly (Add s) db))))).
  { destruct (call_add_student_cases ly s db Hly) as [[H ->] | [H ->]];
      simpl; [exact H |].
    rewrite map_app. apply in_or_app. right. simpl. auto. }
  split; [exact Hin |].
  destruct (call_add_student_cases ly' s
              (db_after (call StudentKind ly (Add s) db)) Hly')
    as [[_ ->] | [Hnot _]]; [| contradiction].
  simpl. repeat split.
  apply in_or_app. right. simpl. tauto.
Qed.

Lemma guarded_add_twice_is_once_witness :
  (Service <> Repository /\ Controller <> Repository) /\
  (let once := call StudentKind Service (Add student1) Database.init in
   let twice := call StudentKind Controller (Add student1) (db_after once) in
   In (Student.student_id student1)
      (map Student.student_id (Database.students (db_after once))) /\
   outcome twice = Returns NoneReply /\
   db_after twice = db_after once /\
   In duplicate_line (stdout twice)).
Proof.
  assert (H1 : Service <> Repository) by discriminate.
  assert (H2 : Controller <> Repository) by discriminate.
  split; [split; assumption |].
  exact (guarded_add_twice_is_once Service Controller student1
           Database.init H1 H2).
Defined.

(** ** The Service over any repository *)

(** X5: [StudentService.add_student] over any implementation of
    [IStudentRepository].  If the repository's [get_all_students] raises,
    the exception leaves [add_student] at once.  If it returns a listing that
    holds the [student_id], [add_student] returns [None] after the duplicate
    line, in the database [get_all_students] left, without calling the
    repository's [add_student].  Otherwise the repository's [add_student] is
    run once, in that database; its exception, if any, leaves the method,
    and the success line is printed only when it returns. *)
Theorem add_student_over_any_repository
    (repo : IStudentRepository.t) student db :
  let listing := IStudentRepository.get_all_students repo db in
  let r := StudentService.add_student repo student db in
  match outcome listing with
  | Raises ex =>
      r = mkRun (Raises ex) (db_after listing)
            ("[Service] Checking if student can be added" :: stdout listing)
  | Returns listed =>
      if in_dec Z.eq_dec (Student.student_id student)
           (map Student.student_id listed)
      then
        r = mkRun (Returns tt) (db_after listing)
              ("[Service] Checking if student can be added"
               :: stdout listing ++ [duplicate_line])
      else
        let a := IStudentRepository.add_student repo student
                   (db_after listing) in
        match outcome a with
        | Returns _ =>
            r = mkRun (Returns tt) (db_after a)
                  ("[Service] Checking if student can be added"
                   :: stdout listing ++ stdout a
                      ++ ["[Service] Student added successfully."])
        | Raises ex =>
            r = mkRun (Raises ex) (db_after a)
                  ("[Service] Checking if student can be added"
                   :: stdout listing ++ stdout a)
        end
  end.
Proof.
  cbv zeta. unfold StudentService.add_student.
  rewrite print_then.
  destruct (outcome (IStudentRepository.get_all_students repo db))
    as [listed | ex] eqn:El.
  - rewrite (bind_returns _ _ _ _ El).
    destruct (in_dec Z.eq_dec (Student.student_id student)
                (map Student.student_id listed)) as [Hin | Hnot].
    + unfold bind. rewrite (add_student_loop_found _ _ _ Hin). reflexivity.
    + unfold bind. rewrite (add_student_loop_fresh _ _ _ Hnot). simpl.
      destruct (outcome (IStudentRepository.add_student repo student _));
        reflexivity.
  - rewrite (bind_raises _ _ _ _ El). reflexivity.
Qed.

(** ** Removing from a collection of distinct objects *)

(** X6: when no object is stored twice, [remove] of a stored entity, at any
    layer, returns normally and leaves exactly the other objects, in their
    order; the entity is then absent, and a second [remove] of it raises the
    [ValueError] of [list.remove]. *)
Theorem remove_distinct_object k ly (e : Entity k) db :
  distinct_objects (collection k db) ->
  py_in e (collection k db) ->
  let r := call k ly (Remove e) db in
  outcome r = Returns NoneReply /\
  collection k (db_after r) =
    filter (fun y => negb (py_eq y e)) (collection k db) /\
  ~ py_in e (collection k (db_after r)) /\
  (forall ly', outcome (call k ly' (Remove e) (db_after r)) =
                 Raises not_in_list).
Proof.
  intros Hdistinct Hin. cbv zeta.
  destruct (list_remove_present _ _ Hin)
    as (front & y & back & Hsplit & Ey & Hfront & Hrm).
  assert (Hback : ~ py_in e back).
  { rewrite Hsplit in Hdistinct.
    exact (distinct_objects_split front back y e Hdistinct Ey). }
  pose proof (call_remove_outcome k ly e db) as Hcall.
  rewrite Hrm in Hcall. destruct Hcall as [Hout Hdb].
  assert (Hgone : ~ py_in e (front ++ back))
    by (rewrite py_in_app; tauto).
  split; [exact Hout |].
  rewrite Hdb, collection_set_collection.
  split; [| split].
  - rewrite Hsplit, filter_app. simpl.
    apply py_eq_true in Ey. rewrite Ey. simpl.
    now rewrite (filter_absent _ _ Hfront), (filter_absent _ _ Hback).
  - exact Hgone.
  - intros ly'.
    pose proof (call_remove_outcome k ly' e
                  (set_collection k (front ++ back) db)) as Hagain.
    rewrite collection_set_collection in Hagain.
    rewrite (list_remove_absent _ _ Hgone) in Hagain.
    exact (proj1 Hagain).
Qed.

Lemma remove_distinct_object_witness :
  (distinct_objects (collection StudentKind db_two_students) /\
   py_in (student1 : Entity StudentKind)
     (collection StudentKind db_two_students)) /\
  (let r := call StudentKind Controller (Remove student1) db_two_students in
   outcome r = Returns NoneReply /\
   collection StudentKind (db_after r) =
     filter (fun y => negb (py_eq y (student1 : Entity StudentKind)))
       (collection StudentKind db_two_students) /\
   ~ py_in (student1 : Entity StudentKind)
       (collection StudentKind (db_after r)) /\
   (forall ly',
       outcome (call StudentKind ly' (Remove student1) (db_after r)) =
         Raises not_in_list)).
Proof.
  assert (Hd : distinct_objects (collection StudentKind db_two_students)).
  { repeat constructor; simpl; intuition discriminate. }
  assert (Hin : py_in (student1 : Entity StudentKind)
                  (collection StudentKind db_two_students))
    by (exists student1; split; [left |]; reflexivity).
  split; [split; assumption |].
  exact (remove_distinct_object StudentKind Controller student1
           db_two_students Hd Hin).
Defined.

(** ** The listing of the main program *)

Lemma py_str_printable n : printable n -> py_str n = Some (decimal n).
Proof.
  unfold printable, py_str. intros H. apply Nat.leb_le in H.
  now rewrite H.
Qed.

Lemma py_str_unprintable n : ~ printable n -> py_str n = None.
Proof.
  unfold printable, py_str. intros H. apply Nat.leb_nle in H.
  now rewrite H.
Qed.

Lemma printable_dec n : {printable n} + {~ printable n}.
Proof. apply le_dec. Qed.

(** The numeral read back is the integer. *)
Lemma decimal_reads_back n :
  NilZero.int_of_string (decimal n) = Some (Z.to_int n) /\
  Z.of_int (Z.to_int n) = n.
Proof.
  split; [| apply DecimalZ.of_to].
  apply NilZero.isi; intros E; pose proof (DecimalZ.of_to n) as H;
    rewrite E in H; simpl in H; subst n; discriminate E.
Qed.

Section DisplayLoop.
Context {A : Type}.
Variable loop : list A -> Py unit.
Variable body : A -> Py unit.
Variable ok : A -> Prop.
Variable line : A -> string.
Hypothesis loop_nil : loop [] = ret tt.
Hypothesis loop_cons :
  forall x rest, loop (x :: rest) = bind (body x) (fun _ => loop rest).
Hypothesis ok_dec : forall x, {ok x} + {~ ok x}.
Hypothesis body_ok :
  forall x db, ok x -> body x db = mkRun (Returns tt) db [line x].
Hypothesis body_raises :
  forall x db,
    ~ ok x ->
    outcome (body x db) = Raises int_str_limit /\ db_after (body x db) = db.

Lemma display_loop_run listed db :
  db_after (loop listed db) = db /\
  (Forall ok listed ->
   loop listed db = mkRun (Returns tt) db (map line listed)) /\
  (~ Forall ok listed -> outcome (loop listed db) = Raises int_str_limit).
Proof.
  induction listed as [| x rest IH].
  - rewrite loop_nil. repeat split. intros H. exfalso. apply H. constructor.
  - destruct IH as (IHdb & IHok & IHraise).
    rewrite loop_cons.
    destruct (ok_dec x) as [Hx | Hx].
    + assert (E := body_ok x db Hx).
      rewrite (bind_returns _ _ _ _ (f_equal outcome E)).
      rewrite E. cbn [outcome db_after stdout].
      split; [exact IHdb | split].
      * intros Hall. inversion Hall as [| ? ? _ Hrest]; subst.
        rewrite (IHok Hrest). reflexivity.
      * intros Hnot. apply IHraise. intros Hrest. apply Hnot.
        constructor; assumption.
    + destruct (body_raises x db Hx) as [Eout Edb].
      rewrite (bind_raises _ _ _ _ Eout). cbn [outcome db_after].
      split; [exact Edb | split].
      * intros Hall. inversion Hall; contradiction.
      * intros _. reflexivity.
Qed.

End DisplayLoop.

Lemma display_students_run listed db :
  db_after (display_students listed db) = db /\
  (Forall (fun s => printable (Student.student_id s)) listed ->
   display_students listed db =
     mkRun (Returns tt) db (map student_line listed)) /\
  (~ Forall (fun s => printable (Student.student_id s)) listed ->
   outcome (display_students listed db) = Raises int_str_limit).
Proof.
  apply display_loop_run with
    (body := fun s =>
       print_args [Str "ID:"; Int (Student.student_id s);
                   Str "| Name:"; Str (Student.name s);
                   Str "| Email:"; Str (Student.email s)]).
  - reflexivity.
  - reflexivity.
  - intros s. apply printable_dec.
  - intros s db' Hs. unfold print_args; cbn [print_from arg_str].
    rewrite (py_str_printable _ Hs). reflexivity.
  - intros s db' Hs. unfold print_args; cbn [print_from arg_str].
    rewrite (py_str_unprintable _ Hs). split; reflexivity.
Qed.

Lemma display_trainers_run listed db :
  db_after (display_trainers listed db) = db /\
  (Forall (fun t => printable (Trainer.trainer_id t)) listed ->
   display_trainers listed db =
     mkRun (Returns tt) db (map trainer_line listed)) /\
  (~ Forall (fun t => printable (Trainer.trainer_id t)) listed ->
   outcome (display_trainers listed db) = Raises int_str_limit).
Proof.
  apply display_loop_run with
    (body := fun t =>
       print_args [Str "ID:"; Int (Trainer.trainer_id t);
                   Str "| Name:"; Str (Trainer.name t);
                   Str "| Expertise:"; Str (Trainer.expertise t)]).
  - reflexivity.
  - reflexivity.
  - intros t. apply printable_dec.
  - intros t db' Ht. unfold print_args; cbn [print_from arg_str].
    rewrite (py_str_printable _ Ht). reflexivity.
  - intros t db' Ht. unfold print_args; cbn [print_from arg_str].
    rewrite (py_str_unprintable _ Ht). split; reflexivity.
Qed.

Lemma display_courses_run listed db :
  db_after (display_courses listed db) = db /\
  (Forall (fun c => printable (Course.course_id c) /\
                    printable (Course.trainer_id c)) listed ->
   display_courses listed db =
     mkRun (Returns tt) db (map course_line listed)) /\
  (~ Forall (fun c => printable (Course.course_id c) /\
                      printable (Course.trainer_id c)) listed ->
   outcome (display_courses listed db) = Raises int_str_limit).
Proof.
  apply display_loop_run with
    (body := fun c =>
       print_args [Str "ID:"; Int (Course.course_id c);
                   Str "| Title:"; Str (Course.title c);
                   Str "| Trainer ID:"; Int (Course.trainer_id c)]).
  - reflexivity.
  - reflexivity.
  - intros c.
    destruct (printable_dec (Course.course_id c));
      destruct (printable_dec (Course.trainer_id c)); tauto.
  - intros c db' [Hc Ht]. unfold print_args; cbn [print_from arg_str].
    rewrite (py_str_printable _ Hc). cbn [print_from arg_str].
    rewrite (py_str_printable _ Ht). reflexivity.
  - intros c db' Hnot. unfold print_args; cbn [print_from arg_str].
    destruct (printable_dec (Course.course_id c)) as [Hc | Hc].
    + rewrite (py_str_printable _ Hc). cbn [print_from arg_str].
      destruct (printable_dec (Course.trainer_id c)) as [Ht | Ht];
        [tauto |].
      rewrite (py_str_unprintable _ Ht). split; reflexivity.
    + rewrite (py_str_unprintable _ Hc). split; reflexivity.
Qed.

Lemma all_printable_dec db : {all_printable db} + {~ all_printable db}.
Proof.
  unfold all_printable.
  destruct (Forall_dec _ (fun s => printable_dec (Student.student_id s))
              (Database.students db));
    destruct (Forall_dec _ (fun t => printable_dec (Trainer.trainer_id t))
                (Database.trainers db));
    destruct (Forall_dec
                (fun c => printable (Course.course_id c) /\
                          printable (Course.trainer_id c))
                (fun c =>
                   match printable_dec (Course.course_id c),
                         printable_dec (Course.trainer_id c) with
                   | left Hc, left Ht => left (conj Hc Ht)
                   | right Hc, _ => right (fun H => Hc (proj1 H))
                   | _, right Ht => right (fun H => Ht (proj2 H))
                   end)
                (Database.courses db));
    tauto.
Qed.

(** X7: the listing part of the main program never changes the database.
    When every identifier it prints is an integer [str] converts (at most
    4300 digits), it returns normally and prints, under each of its three
    headers and the trace of the controller call, one line per stored
    entity, in stored order: students, then trainers, then courses; the
    integers of a line are decimal numerals that read back as the stored
    identifiers.  When some identifier is beyond that limit, the listing
    ends in the [ValueError] of [str]. *)
Theorem main_display_lists_everything db :
  db_after (main_display db) = db /\
  (all_printable db ->
   outcome (main_display db) = Returns tt /\
   stdout (main_display db) =
     [String.append newline "--- Students in Database ---";
      "[Controller] Request received to list students";
      "[Service] Retrieving all students";
      "[Repository] Fetching all students from database"]
     ++ map student_line (Database.students db)
     ++ [String.append newline "--- Trainers in Database ---";
         "[Controller] Request received to list trainers";
         "[Service] Retrieving all trainers";
         "[Repository] Fetching all trainers from database"]
     ++ map trainer_line (Database.trainers db)
     ++ [String.append newline "--- Courses in Database ---";
         "[Controller] Request received to list courses";
         "[Service] Retrieving all courses";
         "[Repository] Fetching all courses from database"]
     ++ map course_line (Database.courses db)) /\
  (~ all_printable db ->
   outcome (main_display db) = Raises int_str_limit) /\
  (forall n,
      NilZero.int_of_string (decimal n) = Some (Z.to_int n) /\
      Z.of_int (Z.to_int n) = n).
Proof.
  destruct (display_students_run (Database.students db) db)
    as (Sdb & Sok & Sraise).
  destruct (display_trainers_run (Database.trainers db) db)
    as (Tdb & Tok & Traise).
  destruct (display_courses_run (Database.courses db) db)
    as (Cdb & Cok & Craise).
  assert (Hrun :
    db_after (main_display db) = db /\
    (all_printable db ->
     main_display db =
       mkRun (Returns tt) db
         ([String.append newline "--- Students in Database ---";
           "[Controller] Request received to list students";
           "[Service] Retrieving all students";
           "[Repository] Fetching all students from database"]
          ++ map student_line (Database.students db)
          ++ [String.append newline "--- Trainers in Database ---";
              "[Controller] Request received to list trainers";
              "[Service] Retrieving all trainers";
              "[Repository] Fetching all trainers from database"]
          ++ map trainer_line (Database.trainers db)
          ++ [String.append newline "--- Courses in Database ---";
              "[Controller] Request received to list courses";
              "[Service] Retrieving all courses";
              "[Repository] Fetching all courses from database"]
          ++ map course_line (Database.courses db))) /\
    (~ all_printable db ->
     outcome (main_display db) = Raises int_str_limit)).
  { unfold all_printable, main_display, bind; simpl.
    destruct (Forall_dec _ (fun s => printable_dec (Student.student_id s))
                (Database.students db)) as [Hs | Hs].
    - rewrite (Sok Hs); simpl.
      destruct (Forall_dec _ (fun t => printable_dec (Trainer.trainer_id t))
                  (Database.trainers db)) as [Ht | Ht].
      + rewrite (Tok Ht); simpl.
        split; [exact Cdb | split].
        * intros (_ & _ & Hc). rewrite (Cok Hc). reflexivity.
        * intros Hnot. rewrite Craise; [reflexivity | tauto].
      + rewrite (Traise Ht); simpl.
        split; [exact Tdb | split]; [tauto | reflexivity].
    - rewrite (Sraise Hs); simpl.
      split; [exact Sdb | split]; [tauto | reflexivity]. }
  destruct Hrun as (Hdb & Hok & Hraise).
  split; [exact Hdb |].
  split; [intros Hall; rewrite (Hok Hall); split; reflexivity |].
  split; [exact Hraise |].
  exact decimal_reads_back.
Qed.

Lemma main_display_lists_everything_witness :
  all_printable db_sample /\
  outcome (main_display db_sample) = Returns tt /\
  stdout (main_display db_sample) =
    [String.append newline "--- Students in Database ---";
     "[Controller] Request received to list students";
     "[Service] Retrieving all students";
     "[Repository] Fetching all students from database";
     "ID: 1 | Name: Rashed | Email: rashed@example.com";
     "ID: 2 | Name: Shuvo | Email: shuvo@example.com";
     String.append newline "--- Trainers in Database ---";
     "[Controller] Request received to list trainers";
     "[Service] Retrieving all trainers";
     "[Repository] Fetching all trainers from database";
     "ID: 1 | Name: Mondol | Expertise: Python";
     "ID: 2 | Name: Ali | Expertise: Data Science";
     String.append newline "--- Courses in Database ---";
     "[Controller] Request received to list courses";
     "[Service] Retrieving all courses";
     "[Repository] Fetching all courses from database";
     "ID: 1 | Title: Python Basics | Trainer ID: 1";
     "ID: 2 | Title: Machine Learning | Trainer ID: 2"].
Proof.
  assert (Hall : all_printable db_sample).
  { assert (Hle : forall n,
               Nat.leb (int_digits n) int_max_str_digits = true ->
               printable n)
      by (intros n H; apply Nat.leb_le; exact H).
    unfold all_printable, db_sample; cbn [Database.students
      Database.trainers Database.courses].
    repeat split;
      repeat (first [apply Forall_cons | apply Forall_nil]);
      try split; apply Hle; reflexivity. }
  split; [exact Hall |].
  exact (proj1 (proj2 (main_display_lists_everything db_sample)) Hall).
Defined.

(* ================================================================= *)
(** * Properties of the design-pattern scripts *)

(** ** Method names *)

Lemma method_cases (method : string) :
  {method = "email"} + {method = "sms"} + {method = "push"}
  + {~ valid_method method}.
Proof.
  destruct (string_dec method "email") as [E | He];
    [left; left; left; exact E |].
  destruct (string_dec method "sms") as [E | Hs];
    [left; left; right; exact E |].
  destruct (string_dec method "push") as [E | Hp];
    [left; right; exact E |].
  right. unfold valid_method. tauto.
Qed.

Lemma invalid_method_eqb (method : string) :
  ~ valid_method method ->
  String.eqb "email" method = false /\ String.eqb "sms" method = false /\
  String.eqb "push" method = false /\ String.eqb method "email" = false /\
  String.eqb method "sms" = false /\ String.eqb method "push" = false.
Proof.
  unfold valid_method. intros Hinvalid.
  repeat split; apply String.eqb_neq; intros E; subst; tauto.
Qed.

(** Rewrites every comparison of an unknown method name to [false]. *)
Ltac invalid_method H :=
  let E1 := fresh in let E2 := fresh in let E3 := fresh in
  let E4 := fresh in let E5 := fresh in let E6 := fresh in
  destruct (invalid_method_eqb _ H) as (E1 & E2 & E3 & E4 & E5 & E6);
  rewrite ?E1, ?E2, ?E3, ?E4, ?E5, ?E6.

(** ** Factory_1.py: the factory method *)

(** X8: [MessageSenderFactory.get_message_sender] prints nothing and changes
    nothing; for "email", "sms" and "push" it returns the sender of that
    class holding the given sender and receiver; for every other method name
    it raises [ValueError("Invalid method selected.")], the [KeyError] of
    the dictionary never leaving it. *)
Theorem get_message_sender_cases {S} (method sender receiver : string)
    (s : S) :
  let r := Factory_1.get_message_sender method sender receiver s in
  Console.state_after r = s /\ Console.stdout r = [] /\
  (method = "email" ->
   Console.outcome r =
     Console.Returns (Factory_1.EmailSender sender receiver)) /\
  (method = "sms" ->
   Console.outcome r =
     Console.Returns (Factory_1.SMSender sender receiver)) /\
  (method = "push" ->
   Console.outcome r =
     Console.Returns (Factory_1.PushSender sender receiver)) /\
  (~ valid_method method ->
   Console.outcome r =
     Console.Raises (Console.ValueError "Invalid method selected.")).
Proof.
  cbv zeta.
  destruct (method_cases method) as [[[-> | ->] | ->] | Hinvalid].
  - repeat split; try reflexivity; try discriminate.
    intros H; exfalso; apply H; unfold valid_method; tauto.
  - repeat split; try reflexivity; try discriminate.
    intros H; exfalso; apply H; unfold valid_method; tauto.
  - repeat split; try reflexivity; try discriminate.
    intros H; exfalso; apply H; unfold valid_method; tauto.
  - cbv [Factory_1.get_message_sender Console.try_except Console.bind
           Console.getitem Factory_1.sender_map Console.dict_get].
    invalid_method Hinvalid. simpl.
    repeat split; try reflexivity;
      intros ->; exfalso; apply Hinvalid; unfold valid_method; tauto.
Qed.

Lemma get_message_sender_cases_witness :
  ~ valid_method "fax" /\
  Console.outcome
    (Factory_1.get_message_sender "fax" "ana" "bob" (@nil string)) =
    Console.Raises (Console.ValueError "Invalid method selected.").
Proof.
  assert (Hinvalid : ~ valid_method "fax")
    by (unfold valid_method; intuition discriminate).
  split; [exact Hinvalid |].
  exact (proj2 (proj2 (proj2 (proj2 (proj2
           (get_message_sender_cases "fax" "ana" "bob" (@nil string))))))
           Hinvalid).
Defined.

(** ** Factory_1.py against withoutFactory_1.py *)

(** X9: the client written with the factory and the client written with the
    [if]/[elif] chain are the same program: on every standard input, and
    whatever [lower] does, they end the same way, read the same lines and
    write the same prompts and the same line. *)
Theorem factory_client_same_as_without lower (stdin : Console.Stdin) :
  Factory_1.client lower stdin = WithoutFactory_1.client lower stdin.
Proof.
  destruct stdin as [| msg [| sender [| receiver [| answer rest]]]];
    try reflexivity.
  destruct (method_cases (lower answer)) as [[[E | E] | E] | Hinvalid];
    cbv [Factory_1.client WithoutFactory_1.client
         Factory_1.get_message_sender Console.try_except Console.bind
         Console.getitem Factory_1.sender_map Console.dict_get
         Console.input Console.outcome Console.state_after Console.stdout];
    [rewrite E; reflexivity .. |].
  invalid_method Hinvalid. reflexivity.
Qed.

(** ** The three clients and their input *)

(** Unfolds a client down to the comparisons of the method name. *)
Ltac run_client :=
  cbv [Factory_1.client WithoutFactory_1.client AbstractFactory.client
       Factory_1.get_message_sender Console.try_except Console.bind
       Console.getitem Factory_1.sender_map AbstractFactory.factory_map
       Console.dict_get Console.input
       Console.outcome Console.state_after Console.stdout].

Lemma abstract_factory_client_returns lower msg sender receiver answer rest :
  let r := AbstractFactory.client lower
             (msg :: sender :: receiver :: answer :: rest) in
  Console.outcome r = Console.Returns tt /\ Console.state_after r = rest /\
  exists text, Console.stdout r = client_prompts ++ [Console.Line text].
Proof.
  cbv zeta.
  destruct (method_cases (lower answer)) as [[[E | E] | E] | Hinvalid];
    run_client;
    [rewrite E; repeat split; eexists; reflexivity .. |].
  invalid_method Hinvalid. repeat split; eexists; reflexivity.
Qed.

Lemma without_factory_client_returns lower msg sender receiver answer rest :
  let r := WithoutFactory_1.client lower
             (msg :: sender :: receiver :: answer :: rest) in
  Console.outcome r = Console.Returns tt /\ Console.state_after r = rest /\
  exists text, Console.stdout r = client_prompts ++ [Console.Line text].
Proof.
  cbv zeta.
  destruct (method_cases (lower answer)) as [[[E | E] | E] | Hinvalid];
    run_client;
    [rewrite E; repeat split; eexists; reflexivity .. |].
  invalid_method Hinvalid. repeat split; eexists; reflexivity.
Qed.

Lemma short_input_absurd {X} (l : list X) a b c d :
  length (a :: b :: c :: d :: l) < 4 -> False.
Proof. simpl. intros H. do 4 apply Nat.succ_lt_mono in H. inversion H. Qed.

Lemma without_factory_reads_four_lines lower stdin :
  reads_four_lines stdin (WithoutFactory_1.client lower stdin).
Proof.
  destruct stdin as [| msg [| sender [| receiver [| answer rest]]]].
  1-4: split; [intros _; repeat split; reflexivity |];
       simpl; intros H; do 4 (apply le_S_n in H || inversion H).
  split; [intros H; exfalso; exact (short_input_absurd _ _ _ _ _ H) |].
  intros _.
  exact (without_factory_client_returns lower msg sender receiver answer rest).
Qed.

Lemma abstract_factory_reads_four_lines lower stdin :
  reads_four_lines stdin (AbstractFactory.client lower stdin).
Proof.
  destruct stdin as [| msg [| sender [| receiver [| answer rest]]]].
  1-4: split; [intros _; repeat split; reflexivity |];
       simpl; intros H; do 4 (apply le_S_n in H || inversion H).
  split; [intros H; exfalso; exact (short_input_absurd _ _ _ _ _ H) |].
  intros _.
  exact (abstract_factory_client_returns lower msg sender receiver answer
           rest).
Qed.

(** X10: each of the three clients, on any standard input and whatever
    [lower] does, can only fail for want of input: with fewer than four
    lines it raises [EOFError] at the [input] that finds none, having
    written the prompts up to that one; with four lines or more it returns,
    has read exactly four, and has written the four prompts and one more
    line.  No method name makes a client raise. *)
Theorem clients_read_four_lines lower (stdin : Console.Stdin) :
  reads_four_lines stdin (Factory_1.client lower stdin) /\
  reads_four_lines stdin (WithoutFactory_1.client lower stdin) /\
  reads_four_lines stdin (AbstractFactory.client lower stdin).
Proof.
  split; [| split].
  - assert (E : Factory_1.client lower stdin =
                WithoutFactory_1.client lower stdin).
    { destruct stdin as [| msg [| sender [| receiver [| answer rest]]]];
        try reflexivity.
      destruct (method_cases (lower answer)) as [[[E | E] | E] | Hinvalid];
        run_client; [rewrite E; reflexivity .. |].
      invalid_method Hinvalid. reflexivity. }
    rewrite E. apply without_factory_reads_four_lines.
  - apply without_factory_reads_four_lines.
  - apply abstract_factory_reads_four_lines.
Qed.

Lemma clients_read_four_lines_witness :
  (length ["hello"; "ana"] < 4 /\
   4 <= length ["hello"; "ana"; "bob"; "SMS"; "more"]) /\
  (Console.outcome (AbstractFactory.client ascii_lower ["hello"; "ana"]) =
     Console.Raises Console.EOFError /\
   Console.outcome
     (Factory_1.client ascii_lower ["hello"; "ana"; "bob"; "SMS"; "more"]) =
     Console.Returns tt /\
   Console.state_after
     (Factory_1.client ascii_lower ["hello"; "ana"; "bob"; "SMS"; "more"]) =
     ["more"]).
Proof.
  assert (Hshort : length ["hello"; "ana"] < 4) by (simpl; auto).
  assert (Hlong : 4 <= length ["hello"; "ana"; "bob"; "SMS"; "more"])
    by (simpl; auto).
  split; [split; assumption |].
  destruct (clients_read_four_lines ascii_lower ["hello"; "ana"])
    as (_ & _ & Hshort_run & _).
  destruct (clients_read_four_lines ascii_lower
              ["hello"; "ana"; "bob"; "SMS"; "more"])
    as ((_ & Hlong_run) & _ & _).
  destruct (Hshort_run Hshort) as (Hraise & _).
  destruct (Hlong_run Hlong) as (Hret & Hrest & _).
  repeat split; assumption.
Defined.

(** ** What the clients print *)

(** X11: given four lines, the client of AbstructFactory.py sends the message
    through the formatter of the chosen family: HTML for "email", plain text
    for "sms" and "push"; for every other method name it prints "Invalid
    method selected.".  The method name is the fourth line passed through
    [lower]. *)
Theorem abstract_factory_client_prints lower msg sender receiver answer rest :
  let r := AbstractFactory.client lower
             (msg :: sender :: receiver :: answer :: rest) in
  (lower answer = "email" ->
   Console.stdout r =
     client_prompts ++
     [Console.Line ("Email from " ++ sender ++ " to " ++ receiver
                    ++ ": <html><body>" ++ msg ++ "</body></html>")%string])
  /\
  (lower answer = "sms" ->
   Console.stdout r =
     client_prompts ++
     [Console.Line ("SMS from " ++ sender ++ " to " ++ receiver
                    ++ ": [PlainText] " ++ msg)%string]) /\
  (lower answer = "push" ->
   Console.stdout r =
     client_prompts ++
     [Console.Line ("Push from " ++ sender ++ " to " ++ receiver
                    ++ ": [PlainText] " ++ msg)%string]) /\
  (~ valid_method (lower answer) ->
   Console.stdout r =
     client_prompts ++ [Console.Line "Invalid method selected."]).
Proof.
  cbv zeta. repeat split.
  - intros E. run_client. rewrite E. reflexivity.
  - intros E. run_client. rewrite E. reflexivity.
  - intros E. run_client. rewrite E. reflexivity.
  - intros Hinvalid. run_client. invalid_method Hinvalid. reflexivity.
Qed.

Lemma abstract_factory_client_prints_witness :
  (ascii_lower "Email" = "email" /\ ~ valid_method (ascii_lower "Fax")) /\
  (Console.stdout
     (AbstractFactory.client ascii_lower ["hi"; "ana"; "bob"; "Email"]) =
     client_prompts ++
     [Console.Line "Email from ana to bob: <html><body>hi</body></html>"] /\
   Console.stdout
     (AbstractFactory.client ascii_lower ["hi"; "ana"; "bob"; "Fax"]) =
     client_prompts ++ [Console.Line "Invalid method selected."]).
Proof.
  assert (Hemail : ascii_lower "Email" = "email") by reflexivity.
  assert (Hfax : ~ valid_method (ascii_lower "Fax"))
    by (unfold valid_method; simpl; intuition discriminate).
  split; [split; assumption |].
  split.
  - exact (proj1 (abstract_factory_client_prints ascii_lower
                    "hi" "ana" "bob" "Email" []) Hemail).
  - exact (proj2 (proj2 (proj2 (abstract_factory_client_prints ascii_lower
                    "hi" "ana" "bob" "Fax" []))) Hfax).
Defined.

(** X12: given four lines, the client of Factory_1.py prints the sending line
    of the chosen channel with the sender, the receiver and the message as
    they were typed; for every other method name the [ValueError] of the
    factory is caught and its text, "Invalid method selected.", is what the
    client prints. *)
Theorem factory_client_prints lower msg sender receiver answer rest :
  let r := Factory_1.client lower
             (msg :: sender :: receiver :: answer :: rest) in
  (lower answer = "email" ->
   Console.stdout r =
     client_prompts ++
     [Console.Line ("Sending email from " ++ sender ++ " to " ++ receiver
                    ++ " with message '" ++ msg ++ "'")%string]) /\
  (lower answer = "sms" ->
   Console.stdout r =
     client_prompts ++
     [Console.Line ("Sending SMS from " ++ sender ++ " to " ++ receiver
                    ++ " with message '" ++ msg ++ "'")%string]) /\
  (lower answer = "push" ->
   Console.stdout r =
     client_prompts ++
     [Console.Line ("Sending Push Notification from " ++ sender ++ " to "
                    ++ receiver ++ " with message '" ++ msg ++ "'")%string])
  /\
  (~ valid_method (lower answer) ->
   Console.stdout r =
     client_prompts ++ [Console.Line "Invalid method selected."]).
Proof.
  cbv zeta. repeat split.
  - intros E. run_client. rewrite E. reflexivity.
  - intros E. run_client. rewrite E. reflexivity.
  - intros E. run_client. rewrite E. reflexivity.
  - intros Hinvalid. run_client. invalid_method Hinvalid. reflexivity.
Qed.

Lemma factory_client_prints_witness :
  (ascii_lower "PUSH" = "push" /\ ~ valid_method (ascii_lower "pigeon")) /\
  (Console.stdout
     (Factory_1.client ascii_lower ["hi"; "ana"; "bob"; "PUSH"]) =
     client_prompts ++
     [Console.Line
        "Sending Push Notification from ana to bob with message 'hi'"] /\
   Console.stdout
     (Factory_1.client ascii_lower ["hi"; "ana"; "bob"; "pigeon"]) =
     client_prompts ++ [Console.Line "Invalid method selected."]).
Proof.
  assert (Hpush : ascii_lower "PUSH" = "push") by reflexivity.
  assert (Hbad : ~ valid_method (ascii_lower "pigeon"))
    by (unfold valid_method; simpl; intuition discriminate).
  split; [split; assumption |].
  split.
  - exact (proj1 (proj2 (proj2 (factory_client_prints ascii_lower
                    "hi" "ana" "bob" "PUSH" []))) Hpush).
  - exact (proj2 (proj2 (proj2 (factory_client_prints ascii_lower
                    "hi" "ana" "bob" "pigeon" []))) Hbad).
Defined.

(** ** Counting printed lines *)

Lemma times_printed_app text out out' :
  times_printed text (out ++ out') =
    times_printed text out + times_printed text out'.
Proof.
  unfold times_printed. now rewrite filter_app, length_app.
Qed.

Lemma console_bind_returns {S A B} (m : Console.M S A)
    (f : A -> Console.M S B) s a :
  Console.outcome (m s) = Console.Returns a ->
  Console.bind m f s =
    Console.mkRun
      (Console.outcome (f a (Console.state_after (m s))))
      (Console.state_after (f a (Console.state_after (m s))))
      (Console.stdout (m s) ++
       Console.stdout (f a (Console.state_after (m s)))).
Proof. intros E. unfold Console.bind. rewrite E. reflexivity. Qed.

(** ** Without Singleton.py *)

Lemma without_singleton_logger (h : WithoutSingleton.Heap) :
  WithoutSingleton.Logger h =
    Console.mkRun (Console.Returns h) (Pos.succ h)
      [Console.Line created_line].
Proof. reflexivity. Qed.

Lemma without_singleton_construct n :
  forall h : WithoutSingleton.Heap,
    exists objects,
      Console.outcome (WithoutSingleton.construct n h) =
        Console.Returns objects /\
      length objects = n /\
      NoDup objects /\
      (forall o, In o objects ->
                 (h <= o)%positive /\
                 (o < Console.state_after
                        (WithoutSingleton.construct n h))%positive) /\
      (h <= Console.state_after (WithoutSingleton.construct n h))%positive /\
      times_printed created_line
        (Console.stdout (WithoutSingleton.construct n h)) = n.
Proof.
  induction n as [| n IH]; intros h.
  - exists []. simpl. repeat split; try constructor; try easy; try lia.
  - destruct (IH (Pos.succ h))
      as (objects & Hout & Hlen & Hnd & Hrange & Hle & Hcount).
    exists (h :: objects).
    cbn [WithoutSingleton.construct].
    rewrite (console_bind_returns _ _ _ _
               (f_equal Console.outcome (without_singleton_logger h))).
    rewrite without_singleton_logger. cbn [Console.state_after Console.stdout
                                           Console.outcome].
    rewrite (console_bind_returns _ _ _ _ Hout).
    cbn [Console.state_after Console.stdout Console.outcome Console.ret].
    repeat split.
    + simpl. now rewrite Hlen.
    + constructor; [| exact Hnd].
      intros Hin. apply Hrange in Hin. lia.
    + destruct H as [<- | Hin]; [lia | apply Hrange in Hin; lia].
    + destruct H as [<- | Hin]; [lia | apply Hrange in Hin; lia].
    + lia.
    + rewrite app_nil_r.
      change ([Console.Line created_line] ++
              Console.stdout (WithoutSingleton.construct n (Pos.succ h)))
        with (Console.Line created_line ::
              Console.stdout (WithoutSingleton.construct n (Pos.succ h))).
      unfold times_printed in *. simpl. now rewrite Hcount.
Qed.

(** X14: without the singleton, [Logger()] called [n] times, from any state
    of the allocator, returns [n] objects that are pairwise distinct and
    none of which existed before, and prints "Logger instance created" [n]
    times; the script therefore ends on the line "False". *)
Theorem without_singleton_all_distinct n (h : WithoutSingleton.Heap) :
  (exists objects,
      Console.outcome (WithoutSingleton.construct n h) =
        Console.Returns objects /\
      length objects = n /\
      NoDup objects /\
      (forall o, In o objects -> (h <= o)%positive) /\
      times_printed created_line
        (Console.stdout (WithoutSingleton.construct n h)) = n) /\
  Console.outcome (WithoutSingleton.script h) = Console.Returns tt /\
  Console.stdout (WithoutSingleton.script h) =
    [Console.Line created_line;
     Console.Line created_line;
     Console.Line "Log: First message";
     Console.Line "Log: Second message";
     Console.Line "Log: Third message";
     Console.Line "Log: Fourth message";
     Console.Line "False"].
Proof.
  split.
  - destruct (without_singleton_construct n h)
      as (objects & Hout & Hlen & Hnd & Hrange & _ & Hcount).
    exists objects. repeat split; try assumption.
    intros o Hin. apply (Hrange o Hin).
  - assert (E : Pos.eqb h (Pos.succ h) = false)
      by (apply Pos.eqb_neq; lia).
    unfold WithoutSingleton.script, Console.bind; simpl.
    rewrite E. split; reflexivity.
Qed.

(** ** Singleton.py *)

Section SingletonFacts.
Variable repr : ObjId -> string.

Lemma singleton_new_first st :
  Singleton._instance st = None ->
  Singleton.__new__ repr st =
    Console.mkRun (Console.Returns (Some (Singleton.heap st)))
      (Singleton.mkState (Some (Singleton.heap st))
         (Pos.succ (Singleton.heap st)))
      [Console.Line "Class instance:  None";
       Console.Line
         (String.append "Object.__new__: " (repr (Singleton.heap st)));
       Console.Line created_line].
Proof.
  destruct st as [inst h]; simpl; intros ->. reflexivity.
Qed.

Lemma singleton_new_again st o :
  Singleton._instance st = Some o ->
  Singleton.__new__ repr st =
    Console.mkRun (Console.Returns (Some o)) st
      [Console.Line (String.append "Class instance:  " (repr o))].
Proof.
  destruct st as [inst h]; simpl; intros ->. reflexivity.
Qed.

Lemma singleton_construct_again n :
  forall st o,
    Singleton._instance st = Some o ->
    Singleton.construct repr n st =
      Console.mkRun (Console.Returns (repeat (Some o) n)) st
        (Console.stdout (Singleton.construct repr n st)) /\
    times_printed created_line
      (Console.stdout (Singleton.construct repr n st)) = 0.
Proof.
  induction n as [| n IH]; intros st o Hst.
  - split; reflexivity.
  - destruct (IH st o Hst) as [Erun Ecount].
    cbn [Singleton.construct]. unfold Singleton.Logger.
    assert (Enew := singleton_new_again st o Hst).
    rewrite (console_bind_returns _ _ _ _ (f_equal Console.outcome Enew)).
    rewrite Enew.
    cbn [Console.state_after Console.stdout Console.outcome].
    assert (Eout : Console.outcome (Singleton.construct repr n st) =
                   Console.Returns (repeat (Some o) n))
      by (rewrite Erun; reflexivity).
    assert (Est : Console.state_after (Singleton.construct repr n st) = st)
      by (rewrite Erun; reflexivity).
    rewrite (console_bind_returns _ _ _ _ Eout).
    cbn [Console.state_after Console.stdout Console.outcome Console.ret].
    rewrite Est, app_nil_r. split; [reflexivity |].
    rewrite times_printed_app, Ecount. reflexivity.
Qed.

End SingletonFacts.

(** X13: with the singleton, [Logger()] called one or more times returns the
    same object every time, never [None].  When the class holds no instance
    yet, that object is created by the first call, it is the only object
    allocated, and "Logger instance created" is printed exactly once; when
    the class already holds one, nothing is allocated or changed and the
    line is not printed.  The script therefore never fails on [log] and
    ends on the line "True". *)
Theorem singleton_one_instance (repr : ObjId -> string) n st :
  let r := Singleton.construct repr (S n) st in
  (Singleton._instance st = None ->
   Console.outcome r =
     Console.Returns (repeat (Some (Singleton.heap st)) (S n)) /\
   Console.state_after r =
     Singleton.mkState (Some (Singleton.heap st))
       (Pos.succ (Singleton.heap st)) /\
   times_printed created_line (Console.stdout r) = 1) /\
  (forall o,
      Singleton._instance st = Some o ->
      Console.outcome r = Console.Returns (repeat (Some o) (S n)) /\
      Console.state_after r = st /\
      times_printed created_line (Console.stdout r) = 0) /\
  Console.outcome (Singleton.script repr st) = Console.Returns tt /\
  last (Console.stdout (Singleton.script repr st)) (Console.Line "False")
    = Console.Line "True".
Proof.
  cbv zeta. split; [| split].
  - intros Hnone.
    assert (Enew := singleton_new_first repr st Hnone).
    cbn [Singleton.construct]. unfold Singleton.Logger.
    rewrite (console_bind_returns _ _ _ _ (f_equal Console.outcome Enew)).
    rewrite Enew.
    cbn [Console.state_after Console.stdout Console.outcome].
    destruct (singleton_construct_again repr n
                (Singleton.mkState (Some (Singleton.heap st))
                   (Pos.succ (Singleton.heap st)))
                (Singleton.heap st) eq_refl) as [Erun Ecount].
    assert (Eout := f_equal Console.outcome Erun).
    assert (Est := f_equal Console.state_after Erun).
    cbn [Console.state_after Console.outcome] in Eout, Est.
    rewrite (console_bind_returns _ _ _ _ Eout).
    cbn [Console.state_after Console.stdout Console.outcome Console.ret].
    rewrite Est, app_nil_r. repeat split.
    rewrite times_printed_app, Ecount. reflexivity.
  - intros o Hsome.
    destruct (singleton_construct_again repr (S n) st o Hsome)
      as [Erun Ecount].
    rewrite Erun at 1 2.
    repeat split. exact Ecount.
  - destruct st as [inst h].
    unfold Singleton.script, Console.bind; simpl.
    rewrite Pos.eqb_refl. split; reflexivity.
Qed.

Lemma singleton_one_instance_witness :
  Singleton._instance (Singleton.mkState None 1%positive) = None /\
  Console.outcome
    (Singleton.construct (fun _ => "<Logger>") 3
       (Singleton.mkState None 1%positive)) =
    Console.Returns [Some 1%positive; Some 1%positive; Some 1%positive] /\
  times_printed created_line
    (Console.stdout
       (Singleton.construct (fun _ => "<Logger>") 3
          (Singleton.mkState None 1%positive))) = 1.
Proof.
  assert (Hnone : Singleton._instance (Singleton.mkState None 1%positive) =
                  None) by reflexivity.
  split; [exact Hnone |].
  destruct (proj1 (singleton_one_instance (fun _ => "<Logger>") 2
                     (Singleton.mkState None 1%positive)) Hnone)
    as (Hout & _ & Hcount).
  split; assumption.
Defined.
